(** * Request signing of the Tencent Cloud API client (packages/capi)

    A shallow embedding of [packages/capi/src/utils.ts] and
    [packages/capi/src/index.ts]: host resolution, the TC3-HMAC-SHA256
    signer [tencentSign], the legacy query-string signer [tencentSignV1]
    and the request assembler [Capi.request].

    Conventions of the embedding.
    - A JavaScript string is the sequence of its UTF-8 bytes, a Rocq
      [string]; [Buffer.from(s, 'utf8')] is therefore the list of its
      characters.
    - A number is an integer ([SInt]) or [NaN] ([SNaN]); fractions and
      infinities do not occur in the signing code (time stamps and nonces
      are integers) and are not represented.
    - Objects live in a store and are passed by location, so that writes
      through one reference are seen through every alias of it.
    - The digest primitives of Node's [crypto] module, [JSON.stringify]
      and the base64 encoder are parameters of the development. *)

From Stdlib Require Import ZArith Ascii DecimalString Sorted Permutation Lia.
From stdpp Require Import base option list strings.

Open Scope Z_scope.
Set Warnings "-register-all".

(** ** JavaScript values *)

(** The primitive values that occur in options and in flattened
    parameters. *)
Inductive scalar : Type :=
  | SUndef
  | SNull
  | SBool (b : bool)
  | SInt (z : Z)
  | SNaN
  | SStr (s : string).

(** A caller-supplied parameter value: a primitive, a nested object or an
    array. *)
Inductive value : Type :=
  | Leaf (s : scalar)
  | Obj (fields : list (string * value))
  | Arr (items : list value).

#[global] Instance scalar_eq_dec : EqDecision scalar.
Proof. solve_decision. Defined.

(** An object whose properties hold primitives: an options object, a flat
    parameter map, a header set. Properties are kept in insertion order
    and a key occurs once ([obj_set] overwrites in place).  The signing
    code never depends on the enumeration order of such an object except
    through [Object.keys(..).sort()], [JSON.stringify] and
    [qs.stringify]. *)
Abbreviation sobj := (list (string * scalar)).

(** A caller-supplied parameter object. *)
Abbreviation params := (list (string * value)).

(** ToBoolean. *)
Definition truthy (v : scalar) : bool :=
  match v with
  | SUndef | SNull | SNaN => false
  | SBool b => b
  | SInt z => negb (z =? 0)
  | SStr s => negb (String.eqb s "")
  end.

(** Decimal rendering of an integer, as [String(n)] gives it for the
    integers a double holds exactly and prints in full (below 1e21). *)
Definition string_of_Z (z : Z) : string :=
  NilZero.string_of_int (Z.to_int z).

(** ToString, as applied by a template literal. *)
Definition to_str (v : scalar) : string :=
  match v with
  | SUndef => "undefined"
  | SNull => "null"
  | SBool true => "true"
  | SBool false => "false"
  | SInt z => string_of_Z z
  | SNaN => "NaN"
  | SStr s => s
  end.

(** [a || b]. *)
Definition js_or (a b : scalar) : scalar := if truthy a then a else b.

(** ** Strings *)

Definition upper_ascii (c : ascii) : ascii :=
  let n := N_of_ascii c in
  if ((97 <=? n) && (n <=? 122))%N then ascii_of_N (n - 32) else c.

(** [s.toUpperCase()] on the ASCII letters; other bytes are kept. *)
Fixpoint toUpperCase (s : string) : string :=
  match s with
  | EmptyString => EmptyString
  | String c s' => String (upper_ascii c) (toUpperCase s')
  end.

(** [s.indexOf(c)] for a one-character needle: the position of the first
    occurrence, or -1. *)
Fixpoint indexOf (c : ascii) (s : string) : Z :=
  match s with
  | EmptyString => -1
  | String a s' =>
      if Ascii.eqb a c then 0
      else let i := indexOf c s' in if i <? 0 then -1 else i + 1
  end.

(** [s.replace(/a/g, b)] for one-character [a] and [b]. *)
Fixpoint replace_all (a b : ascii) (s : string) : string :=
  match s with
  | EmptyString => EmptyString
  | String c s' => String (if Ascii.eqb c a then b else c) (replace_all a b s')
  end.

(** [s.slice(1)]. *)
Definition slice1 (s : string) : string :=
  match s with
  | EmptyString => EmptyString
  | String _ s' => s'
  end.

(** [s.slice(0, 10)]. *)
Definition slice_0_10 (s : string) : string := String.substring 0 10 s.

(** [s[0] === c]. *)
Definition first_char_is (c : ascii) (s : string) : bool :=
  match s with
  | String a _ => Ascii.eqb a c
  | EmptyString => false
  end.

(** [l.join(sep)]. *)
Definition join (sep : string) (l : list string) : string :=
  String.concat sep l.

Definition LF : string := String (ascii_of_N 10) EmptyString.

(** ** Objects *)

Section Objects.
Context {V : Type}.

(** Own-property lookup. *)
Fixpoint obj_lookup (o : list (string * V)) (k : string) : option V :=
  match o with
  | [] => None
  | (k', v) :: o' => if String.eqb k' k then Some v else obj_lookup o' k
  end.

(** [o[k] = v]: overwrite where the key stands, else append. *)
Fixpoint obj_set (o : list (string * V)) (k : string) (v : V) : list (string * V) :=
  match o with
  | [] => [(k, v)]
  | (k', v') :: o' =>
      if String.eqb k' k then (k', v) :: o' else (k', v') :: obj_set o' k v
  end.

(** [Object.keys(o)]. *)
Definition obj_keys (o : list (string * V)) : list string := map fst o.

(** [delete o[k]], used for the rest pattern of a destructuring. *)
Definition obj_remove (o : list (string * V)) (k : string) : list (string * V) :=
  filter (fun kv => String.eqb (fst kv) k = false) o.
End Objects.

(** [o[k]] or [o.k] on an object of primitives: [undefined] when the
    property is absent.  Every property name the code reads this way is
    either one of the object's own keys or a name that
    [Object.prototype] does not define. *)
Definition get (o : sobj) (k : string) : scalar :=
  default SUndef (obj_lookup o k).

(** [assign(target, source)] of the object-assign package: every own
    enumerable property of the source is written to the target, in
    order, a property holding [undefined] included. *)
Definition assign (target source : sobj) : sobj :=
  fold_left (fun t kv => obj_set t (fst kv) (snd kv)) source target.

(** ** Host and URL (utils.ts, lines 47-63) *)

Record HostParams : Type := {
  hp_host : scalar;
  hp_path : scalar;
  hp_protocol : scalar;
  hp_baseHost : scalar;
  hp_ServiceType : scalar;
  hp_Region : scalar
}.

(** [getHost({host, ServiceType, Region, baseHost}, isV1 = false)]. *)
Definition getHost (p : HostParams) (isV1 : bool) : scalar :=
  if negb (truthy (hp_host p)) then
    SStr (to_str (hp_ServiceType p)
          +:+ (if isV1 then "" else "." +:+ to_str (hp_Region p))
          +:+ "." +:+ to_str (hp_baseHost p))
  else hp_host p.

(** [getUrl(opts, isV1 = false)]. *)
Definition getUrl (p : HostParams) (isV1 : bool) : string :=
  let host := getHost p isV1 in
  let path := js_or (hp_path p) (SStr "/") in
  to_str (js_or (hp_protocol p) (SStr "https")) +:+ "://" +:+ to_str host +:+ to_str path.

(** The [hostParams] literal both signers build from the options. *)
Definition hostParams_of (options : sobj) : HostParams :=
  {| hp_host := get options "host";
     hp_path := get options "path";
     hp_protocol := get options "protocol";
     hp_baseHost := get options "baseHost";
     hp_ServiceType := get options "ServiceType";
     hp_Region := get options "Region" |}.

(** ** Parameter flattening (the dot-qs package) *)

(** The leaves of a value below the dotted path [prefix], in enumeration
    order: a nested object contributes [prefix.child], an array
    [prefix.index] with indices counted from zero. *)
Fixpoint leaves_at (prefix : string) (v : value) : list (string * scalar) :=
  match v with
  | Leaf s => [(prefix, s)]
  | Obj fields =>
      (fix in_fields (fs : list (string * value)) : list (string * scalar) :=
         match fs with
         | [] => []
         | (k, v') :: fs' => leaves_at (prefix +:+ "." +:+ k) v' ++ in_fields fs'
         end) fields
  | Arr items =>
      (fix in_items (i : Z) (vs : list value) : list (string * scalar) :=
         match vs with
         | [] => []
         | v' :: vs' =>
             leaves_at (prefix +:+ "." +:+ string_of_Z i) v' ++ in_items (i + 1) vs'
         end) 0 items
  end.

Definition leaves (m : params) : list (string * scalar) :=
  flat_map (fun kv => leaves_at (fst kv) (snd kv)) m.

(** Modelled from the spec: [dotQs.flatten] belongs to the dot-qs
    package, which is not part of the sources.  Following section 4.1,
    every leaf is stored in a new object under its dotted path, whatever
    its value. *)
Definition flatten (m : params) : sobj :=
  fold_left (fun acc kv => obj_set acc (fst kv) (snd kv)) (leaves m) [].

(** A flat map seen as a parameter object again. *)
Definition as_params (f : sobj) : params :=
  map (fun kv => (fst kv, Leaf (snd kv))) f.

(** ** Sorting keys *)

(** [keys.sort()] with the default comparison: strings in the order of
    their code units, which for the keys of ASCII characters that API
    parameters have is the order of their bytes. *)
Fixpoint insert_key (k : string) (l : list string) : list string :=
  match l with
  | [] => [k]
  | k' :: l' => if String.leb k k' then k :: l else k' :: insert_key k l'
  end.

Definition sort_keys (l : list string) : list string :=
  fold_right insert_key [] l.

(** ** The canonical query string of the legacy scheme
       (utils.ts, lines 192-212) *)

(** [val && val[0] === '@'] on a primitive: only a string has a
    character at index 0. *)
Definition starts_with_at (val : scalar) : bool :=
  truthy val &&
  match val with
  | SStr s => first_char_is "@" s
  | _ => false
  end.

(** One round of the [forEach] callback, [qstr] being the accumulator. *)
Definition qstr_step (method : string) (payload : sobj) (qstr key : string) : string :=
  if String.eqb key "" then qstr
  else
    let key :=
      if negb (indexOf "_" key =? 0) then replace_all "_" "." key else key in
    let val := get payload key in
    if String.eqb method "POST" && starts_with_at val then qstr
    else
      let val :=
        match val with
        | SUndef | SNull | SNaN => SStr ""
        | _ => val
        end in
      qstr +:+ "&" +:+ key +:+ "=" +:+ to_str val.

Definition build_qstr (method : string) (payload : sobj) : string :=
  let keys := sort_keys (obj_keys payload) in
  slice1 (fold_left (qstr_step method payload) keys "").

(** ** [qs.stringify] of Node's querystring module *)

Definition unreserved (c : ascii) : bool :=
  let n := N_of_ascii c in
  (((48 <=? n) && (n <=? 57)) || ((65 <=? n) && (n <=? 90))
   || ((97 <=? n) && (n <=? 122)))%N
  || existsb (Ascii.eqb c) (String.list_ascii_of_string "-_.!~*'()").

Definition hex_upper (n : N) : ascii :=
  nth (N.to_nat n) (String.list_ascii_of_string "0123456789ABCDEF") "0"%char.

(** [qs.escape]: percent-encoding of every byte outside the unreserved
    set. *)
Fixpoint qs_escape (s : string) : string :=
  match s with
  | EmptyString => EmptyString
  | String c s' =>
      if unreserved c then String c (qs_escape s')
      else
        let n := N_of_ascii c in
        String "%" (String (hex_upper (n / 16)) (String (hex_upper (n mod 16)) (qs_escape s')))
  end.

(** [stringifyPrimitive]: strings, finite numbers and booleans are
    rendered, anything else is the empty string. *)
Definition stringifyPrimitive (v : scalar) : string :=
  match v with
  | SStr s => s
  | SInt z => string_of_Z z
  | SBool true => "true"
  | SBool false => "false"
  | SUndef | SNull | SNaN => ""
  end.

Definition qs_field (kv : string * scalar) : string :=
  qs_escape (fst kv) +:+ "=" +:+ qs_escape (stringifyPrimitive (snd kv)).

(** [qs.stringify(o)] for an object of primitives. *)
Definition qs_stringify (o : sobj) : string :=
  join "&" (map qs_field o).

(** [qs.stringify(x)] where [x] may be [undefined]: anything that is not
    an object gives the empty string. *)
Definition qs_stringify_opt (x : option sobj) : string :=
  match x with
  | Some o => qs_stringify o
  | None => ""
  end.

(** ** Buffers *)

Abbreviation Buffer := (list ascii).

(** [Buffer.from(s, 'utf8')] for a string. *)
Definition utf8 (s : string) : Buffer := String.list_ascii_of_string s.

Definition hex_lower (n : N) : ascii :=
  nth (N.to_nat n) (String.list_ascii_of_string "0123456789abcdef") "0"%char.

(** [buf.toString('hex')], which is also what [digest('hex')] returns. *)
Fixpoint hex (b : Buffer) : string :=
  match b with
  | [] => EmptyString
  | c :: b' =>
      let n := N_of_ascii c in
      String (hex_lower (n / 16)) (String (hex_lower (n mod 16)) (hex b'))
  end.

(** ** The store and the monad of effects *)

Inductive error : Type :=
  | TypeError (msg : string)      (* a JavaScript TypeError *)
  | InvalidDigest (alg : string)  (* crypto: Error "Invalid digest" *)
  | NoObject.                     (* the store holds nothing at a location *)

Inductive outcome (A : Type) : Type :=
  | Ok (a : A)
  | Throw (e : error).
Arguments Ok {A} a.
Arguments Throw {A} e.

(** Locations of parameter objects and of objects of primitives. *)
Abbreviation ploc := nat (only parsing).
Abbreviation floc := nat (only parsing).

(** The objects reachable by the program and what was written to the
    console, oldest line first, as (topic, content). *)
Record store : Type := {
  objs : list params;
  flats : list sobj;
  console : list (string * string)
}.

Definition M (A : Type) : Type := store -> store * outcome A.

#[global] Instance M_ret : MRet M := fun A a st => (st, Ok a).
#[global] Instance M_bind : MBind M := fun A B f m st =>
  match m st with
  | (st', Ok a) => f a st'
  | (st', Throw e) => (st', Throw e)
  end.

Definition throw {A : Type} (e : error) : M A := fun st => (st, Throw e).

Definition read_params (l : ploc) : M params := fun st =>
  match objs st !! l with
  | Some p => (st, Ok p)
  | None => (st, Throw NoObject)
  end.

(** The store with the parameter object at [l] replaced. *)
Definition with_obj (st : store) (l : ploc) (p : params) : store :=
  {| objs := <[l := p]> (objs st); flats := flats st; console := console st |}.

(** The store with the object of primitives at [l] replaced. *)
Definition with_flat (st : store) (l : floc) (o : sobj) : store :=
  {| objs := objs st; flats := <[l := o]> (flats st); console := console st |}.

(** [o.k = v] on a parameter object. *)
Definition write_param (l : ploc) (k : string) (v : value) : M unit := fun st =>
  match objs st !! l with
  | Some p => (with_obj st l (obj_set p k v), Ok tt)
  | None => (st, Throw NoObject)
  end.

Definition alloc_params (p : params) : M ploc := fun st =>
  ({| objs := objs st ++ [p]; flats := flats st; console := console st |},
   Ok (length (objs st))).

Definition read_flat (l : floc) : M sobj := fun st =>
  match flats st !! l with
  | Some o => (st, Ok o)
  | None => (st, Throw NoObject)
  end.

Definition store_flat (l : floc) (o : sobj) : M unit := fun st =>
  match flats st !! l with
  | Some _ => (with_flat st l o, Ok tt)
  | None => (st, Throw NoObject)
  end.

(** [o.k = v] on an object of primitives. *)
Definition write_flat (l : floc) (k : string) (v : scalar) : M unit :=
  o ← read_flat l; store_flat l (obj_set o k v).

Definition alloc_flat (o : sobj) : M floc := fun st =>
  ({| objs := objs st; flats := flats st ++ [o]; console := console st |},
   Ok (length (flats st))).

(** [logger(topic, content)]: one console line. *)
Definition logger (topic content : string) : M unit := fun st =>
  ({| objs := objs st; flats := flats st;
      console := console st ++ [(topic, content)] |}, Ok tt).

(** [assign(target, source)] on stored objects; the target is returned. *)
Definition assign_at (target source : floc) : M floc :=
  s ← read_flat source;
  t ← read_flat target;
  _ ← store_flat target (assign t s);
  mret target.

(** [v.toUpperCase()]: only a string has the method. *)
Definition toUpperCase_of (v : scalar) : M string :=
  match v with
  | SStr s => mret (toUpperCase s)
  | _ => throw (TypeError "toUpperCase is not a function")
  end.

(** [Buffer.from(v, 'utf8')]: a primitive that is not a string is
    rejected. *)
Definition Buffer_from (v : scalar) : M Buffer :=
  match v with
  | SStr s => mret (utf8 s)
  | _ => throw (TypeError "The first argument must be of type string")
  end.

(** ** What the platform provides *)

(** [moment()] at the time of a call and the value drawn for the nonce,
    [Math.round(Math.random() * 65535)]. *)
Record Env : Type := {
  now_unix : Z;          (* nowTime.unix() *)
  now_iso : string;      (* nowTime.toISOString() *)
  random_nonce : Z
}.

Class Platform : Type := {
  (* crypto.createHash('sha256').update(data).digest() *)
  sha256 : Buffer -> Buffer;
  (* crypto.createHmac(alg, key).update(data).digest() *)
  hmac_sha256 : Buffer -> Buffer -> Buffer;
  hmac_sha1 : Buffer -> Buffer -> Buffer;
  (* the other digests the crypto library knows, by name *)
  hmac_other : string -> option (Buffer -> Buffer -> Buffer);
  (* buf.toString('base64') *)
  base64 : Buffer -> string;
  (* JSON.stringify of an object of primitives *)
  JSON_stringify : sobj -> string
}.

(** ** Results and request descriptors *)

Record TencentSignResult : Type := {
  r_url : string;
  r_payload : floc;
  r_Host : scalar;
  r_Authorization : string;
  r_Timestamp : Z
}.

Record TencentSignResultV1 : Type := {
  r1_url : string;
  r1_method : string;
  r1_signPath : string
}.

(** The options handed to the HTTP client ([rp.Options]); an absent
    property is [None]. *)
Record reqOption : Type := {
  q_url : string;
  q_method : string;
  q_json : bool;
  q_strictSSL : bool;
  q_headers : option (list (string * value));
  q_body : option floc;
  q_form : option floc;
  q_timeout : option scalar
}.

(** ToBoolean of a parameter value: objects and arrays are truthy. *)
Definition truthy_value (v : value) : bool :=
  match v with
  | Leaf s => truthy s
  | _ => true
  end.

(** A property of a parameter object, [undefined] when absent. *)
Definition get_param (p : params) (k : string) : value :=
  default (Leaf SUndef) (obj_lookup p k).

(** The instance of the class: both fields refer to one object, since
    the constructor stores what [assign(this.defaultOptions, ..)]
    returns. *)
Record CapiObject : Type := {
  defaultOptions : floc;
  options : floc
}.

(** The [defaultOptions] initialiser (index.ts, lines 45-55). *)
Definition defaultOptions_init : sobj :=
  [("path", SStr "/"); ("method", SStr "POST"); ("protocol", SStr "https");
   ("baseHost", SStr "api.qcloud.com"); ("ServiceType", SStr "");
   ("SecretId", SStr ""); ("SecretKey", SStr ""); ("Region", SStr "ap-guangzhou");
   ("SignatureMethod", SStr "sha1")].

(** Property writes on a request descriptor. *)
Definition set_url (q : reqOption) (url : string) : reqOption :=
  {| q_url := url; q_method := q_method q; q_json := q_json q;
     q_strictSSL := q_strictSSL q; q_headers := q_headers q; q_body := q_body q;
     q_form := q_form q; q_timeout := q_timeout q |}.

Definition set_form (q : reqOption) (form : option floc) : reqOption :=
  {| q_url := q_url q; q_method := q_method q; q_json := q_json q;
     q_strictSSL := q_strictSSL q; q_headers := q_headers q; q_body := q_body q;
     q_form := form; q_timeout := q_timeout q |}.

Definition set_timeout (q : reqOption) (t : scalar) : reqOption :=
  {| q_url := q_url q; q_method := q_method q; q_json := q_json q;
     q_strictSSL := q_strictSSL q; q_headers := q_headers q; q_body := q_body q;
     q_form := q_form q; q_timeout := Some t |}.

(** [reqOption.headers[k] = v], the headers being created when absent. *)
Definition set_header (q : reqOption) (k : string) (v : value) : reqOption :=
  {| q_url := q_url q; q_method := q_method q; q_json := q_json q;
     q_strictSSL := q_strictSSL q;
     q_headers := Some (obj_set (default [] (q_headers q)) k v);
     q_body := q_body q; q_form := q_form q; q_timeout := q_timeout q |}.

(** [qs.stringify(x)] where [x] is a stored object or [undefined]. *)
Definition stringify_at (x : option floc) : M string :=
  match x with
  | Some l => o ← read_flat l; mret (qs_stringify o)
  | None => mret (qs_stringify_opt None)
  end.

Section Signing.
Context `{Platform}.

(** The keyed digest that goes by a name, if the crypto library has
    one. *)
Definition digest_named (alg : string) : option (Buffer -> Buffer -> Buffer) :=
  if String.eqb alg "sha256" then Some hmac_sha256
  else if String.eqb alg "sha1" then Some hmac_sha1
  else hmac_other alg.

(** [crypto.createHmac(algorithm, key)]: the keyed digest function, or
    the error raised for an algorithm that is no string or names no
    known digest. *)
Definition createHmac (algorithm : scalar) (key : Buffer) : M (Buffer -> Buffer) :=
  match algorithm with
  | SStr alg =>
      match digest_named alg with
      | Some h => mret (h key)
      | None => throw (InvalidDigest alg)
      end
  | _ => throw (TypeError "The algorithm argument must be of type string")
  end.

(** [sign(str, secretKey, algorithm = 'sha256')] (utils.ts, lines
    65-72): the default applies when the argument is [undefined]. *)
Definition sign (str : scalar) (secretKey : Buffer) (algorithm : scalar) : M Buffer :=
  let algorithm :=
    match algorithm with
    | SUndef => SStr "sha256"
    | _ => algorithm
    end in
  hmac ← createHmac algorithm secretKey;
  data ← Buffer_from str;
  mret (hmac data).

(** [crypto.createHash('sha256').update(s).digest('hex')]. *)
Definition sha256_hex (s : string) : string := hex (sha256 (utf8 s)).

(** [tencentSign(payload, options)] (utils.ts, lines 81-150). *)
Definition tencentSign (env : Env) (payload : ploc) (options : floc)
  : M TencentSignResult :=
  o ← read_flat options;
  let hostParams := hostParams_of o in
  let url := getUrl hostParams false in
  let Host := getHost hostParams false in
  let Timestamp := now_unix env in
  let date := slice_0_10 (now_iso env) in
  let Algorithm := "TC3-HMAC-SHA256" in
  p ← read_params payload;
  payload ← alloc_flat (flatten p);
  (* 1. create Canonical request string *)
  HTTPRequestMethod ← toUpperCase_of (js_or (get o "method") (SStr "POST"));
  let CanonicalURI := "/" in
  let CanonicalQueryString := "" in
  let CanonicalHeaders :=
    "content-type:application/json" +:+ LF +:+ "host:" +:+ to_str Host +:+ LF in
  let SignedHeaders := "content-type;host" in
  flat ← read_flat payload;
  let HashedRequestPayload := sha256_hex (JSON_stringify flat) in
  let CanonicalRequest :=
    HTTPRequestMethod +:+ LF +:+ CanonicalURI +:+ LF +:+ CanonicalQueryString
    +:+ LF +:+ CanonicalHeaders +:+ LF +:+ SignedHeaders +:+ LF
    +:+ HashedRequestPayload in
  (* 2. create string to sign *)
  let CredentialScope :=
    date +:+ "/" +:+ to_str (get o "ServiceType") +:+ "/tc3_request" in
  let HashedCanonicalRequest := sha256_hex CanonicalRequest in
  let StringToSign :=
    Algorithm +:+ LF +:+ string_of_Z Timestamp +:+ LF +:+ CredentialScope
    +:+ LF +:+ HashedCanonicalRequest in
  (* 3. calculate signature *)
  SecretDate ← sign (SStr date) (utf8 ("TC3" +:+ to_str (get o "SecretKey"))) SUndef;
  SecretService ← sign (get o "ServiceType") SecretDate SUndef;
  SecretSigning ← sign (SStr "tc3_request") SecretService SUndef;
  let Signature := hex (hmac_sha256 SecretSigning (utf8 StringToSign)) in
  (* 4. create authorization *)
  let Authorization :=
    Algorithm +:+ " Credential=" +:+ to_str (get o "SecretId") +:+ "/"
    +:+ CredentialScope +:+ ", SignedHeaders=" +:+ SignedHeaders
    +:+ ", Signature=" +:+ Signature in
  (* log debug info *)
  _ ← (if truthy (get o "debug") then
         _ ← logger "CanonicalRequest" CanonicalRequest;
         _ ← logger "StringToSign" StringToSign;
         _ ← logger "Signature" Signature;
         logger "Authorization" Authorization
       else mret tt);
  mret {| r_url := url; r_payload := payload; r_Host := Host;
          r_Authorization := Authorization; r_Timestamp := Timestamp |}.

(** [tencentSignV1(payload, options)] (utils.ts, lines 159-225). *)
Definition tencentSignV1 (env : Env) (payload : ploc) (options : floc)
  : M TencentSignResultV1 :=
  o ← read_flat options;
  let hostParams := hostParams_of o in
  let url := getUrl hostParams true in
  let Host := getHost hostParams true in
  let Timestamp := now_unix env in
  let Nonce := random_nonce env in
  _ ← write_param payload "Region" (Leaf (get o "Region"));
  _ ← write_param payload "Nonce" (Leaf (SInt Nonce));
  _ ← write_param payload "Timestamp" (Leaf (SInt Timestamp));
  _ ← write_param payload "SecretId" (Leaf (get o "SecretId"));
  _ ← write_param payload "RequestClient" (Leaf (SStr "SDK_NODEJS_v0.0.1"));
  _ ← (if decide (get o "SignatureMethod" = SStr "sha256") then
         write_param payload "SignatureMethod" (Leaf (SStr "HmacSHA256"))
       else mret tt);
  p ← read_params payload;
  payload ← alloc_flat (flatten p);
  flat ← read_flat payload;
  method ← toUpperCase_of (js_or (get o "method") (SStr "POST"));
  let qstr := build_qstr method flat in
  secretKey ← Buffer_from (get o "SecretKey");
  digest ← sign (SStr (method +:+ to_str Host +:+ to_str (get o "path")
                       +:+ "?" +:+ qstr))
                secretKey (get o "SignatureMethod");
  _ ← write_flat payload "Signature" (SStr (base64 digest));
  signed ← read_flat payload;
  mret {| r1_url := url; r1_method := method; r1_signPath := qs_stringify signed |}.

(** ** The request assembler (index.ts) *)

(** [new Capi(options)]: the defaults are a fresh object, into which
    the caller's options are merged (index.ts, lines 45-59). *)
Definition Capi_new (options : floc) : M CapiObject :=
  d ← alloc_flat defaultOptions_init;
  merged ← assign_at d options;
  mret {| defaultOptions := d; options := merged |}.

(** [JSON.stringify(reqOption)], for the debug line only. *)
Context (JSON_stringify_req : reqOption -> string).

(** [request(data, opts = this.defaultOptions, isV3 = false)]
    (index.ts, lines 61-132); the value is the descriptor passed to
    the HTTP client. *)
Definition request (env : Env) (this : CapiObject) (data : ploc)
    (opts : option floc) (isV3 : bool) : M reqOption :=
  let opts := default (defaultOptions this) opts in
  options' ← assign_at (options this) opts;
  d ← read_params data;
  let Action := get_param d "Action" in
  let Version := get_param d "Version" in
  restData ← alloc_params (obj_remove (obj_remove d "Action") "Version");
  optsv ← read_flat opts;
  reqOption ←
    (if isV3 || truthy (get optsv "isV3") then
       r ← tencentSign env restData options';
       o ← read_flat options';
       let headers : list (string * value) :=
         [("Content-Type", Leaf (SStr "application/json"));
          ("Authorization", Leaf (SStr (r_Authorization r)));
          ("Host", Leaf (r_Host r));
          ("X-TC-Action", Action);
          ("X-TC-Version",
           if truthy_value Version then Version else Leaf (SStr "2018-03-21"));
          ("X-TC-Timestamp", Leaf (SInt (r_Timestamp r)));
          ("X-TC-Region", Leaf (get o "Region"))] in
       let reqOption :=
         {| q_url := r_url r; q_method := "POST"; q_json := true;
            q_strictSSL := false; q_headers := Some headers;
            q_body := Some (r_payload r); q_form := None;
            q_timeout := None |} in
       this_options ← read_flat (options this);
       let reqOption :=
         if truthy (get this_options "Token")
         then set_header reqOption "X-TC-Token" (Leaf (get this_options "Token"))
         else reqOption in
       optsv ← read_flat opts;
       let reqOption :=
         if truthy (get optsv "RequestClient")
         then set_header reqOption "X-TC-RequestClient"
                (Leaf (get optsv "RequestClient"))
         else reqOption in
       mret reqOption
     else
       r ← tencentSignV1 env data options';
       (* the result has the properties url, method and signPath: the
          [payload] that is destructured from it is undefined *)
       let payload : option floc := None in
       let reqOption :=
         {| q_url := r1_url r; q_method := r1_method r; q_json := true;
            q_strictSSL := false; q_headers := None; q_body := None;
            q_form := None; q_timeout := None |} in
       if String.eqb (r1_method r) "POST" then mret (set_form reqOption payload)
       else
         query ← stringify_at payload;
         mret (set_url reqOption (q_url reqOption +:+ "?" +:+ query)));
  o ← read_flat options';
  let reqOption :=
    if truthy (get o "timeout") then set_timeout reqOption (get o "timeout")
    else reqOption in
  _ ← (if truthy (get o "debug")
       then logger "Request Option" (JSON_stringify_req reqOption)
       else mret tt);
  mret reqOption.
End Signing.

(** * The signing schemes as the specification words them *)

(** ** Flattened parameter maps (section 4.1) *)

(** Section 4.1 in its own words: every leaf value is reachable by a
    single dotted-path key; a nested map produces [parent.child], a
    sequence [parent.index] with indices counted from zero.
    [reaches prefix v key s] says that the value [v], itself stored
    under the path [prefix], has the leaf [s] at the dotted path
    [key]. *)
Inductive reaches : string -> value -> string -> scalar -> Prop :=
  | reaches_leaf (prefix : string) (s : scalar) :
      reaches prefix (Leaf s) prefix s
  | reaches_child (prefix : string) (fields : list (string * value))
      (child : string) (v : value) (key : string) (s : scalar) :
      In (child, v) fields ->
      reaches (prefix +:+ "." +:+ child) v key s ->
      reaches prefix (Obj fields) key s
  | reaches_index (prefix : string) (items : list value) (index : nat)
      (v : value) (key : string) (s : scalar) :
      nth_error items index = Some v ->
      reaches (prefix +:+ "." +:+ string_of_Z (Z.of_nat index)) v key s ->
      reaches prefix (Arr items) key s.

(** The parameter map [m] has the leaf [s] at the dotted path [key]. *)
Definition has_leaf (m : params) (key : string) (s : scalar) : Prop :=
  exists k v, In (k, v) m /\ reaches k v key s.

(** ** Canonical query string of the legacy scheme (section 4.2, step 4) *)

(** [indexOf('_')] is truthy: the key has no underscore, or its first
    underscore is not at position 0. *)
Definition key_is_rewritten (k : string) : bool := negb (indexOf "_" k =? 0).

Definition canonical_key (k : string) : string :=
  if key_is_rewritten k then replace_all "_" "." k else k.

(** [undefined], [null] and [NaN] serialize as the empty string. *)
Definition serialize_value (v : scalar) : string :=
  match v with
  | SUndef | SNull | SNaN => ""
  | _ => to_str v
  end.

Definition begins_with_at (v : scalar) : bool :=
  match v with
  | SStr s => first_char_is "@" s
  | _ => false
  end.

(** The pair a key contributes, [None] when it is skipped; the value is
    the one found under the key as rewritten. *)
Definition canonical_pair (method : string) (payload : sobj) (k : string)
  : option string :=
  let k' := canonical_key k in
  let v := get payload k' in
  if String.eqb method "POST" && begins_with_at v then None
  else Some (k' +:+ "=" +:+ serialize_value v).

Definition canonical_pairs (method : string) (payload : sobj) : list string :=
  omap (canonical_pair method payload)
       (filter (fun k => k ≠ "") (sort_keys (obj_keys payload))).

Definition canonical_query (method : string) (payload : sobj) : string :=
  join "&" (canonical_pairs method payload).

(** ** TC3-HMAC-SHA256 (section 4.3, steps 4 to 8) *)

Section Reference.
Context `{Platform}.

Definition ref_canonical_request (method host : string) (payload : sobj) : string :=
  join LF [toUpperCase method;
           "/";
           "";
           "content-type:application/json" +:+ LF +:+ "host:" +:+ host +:+ LF;
           "content-type;host";
           hex (sha256 (utf8 (JSON_stringify payload)))].

Definition ref_string_to_sign (timestamp : Z) (date service canonicalRequest : string)
  : string :=
  "TC3-HMAC-SHA256" +:+ LF +:+ string_of_Z timestamp +:+ LF
  +:+ date +:+ "/" +:+ service +:+ "/tc3_request" +:+ LF
  +:+ hex (sha256 (utf8 canonicalRequest)).

Definition ref_signing_key (secretKey date service : string) : Buffer :=
  let k1 := hmac_sha256 (utf8 ("TC3" +:+ secretKey)) (utf8 date) in
  let k2 := hmac_sha256 k1 (utf8 service) in
  let k3 := hmac_sha256 k2 (utf8 "tc3_request") in
  k3.

Definition ref_signature (k3 : Buffer) (stringToSign : string) : string :=
  hex (hmac_sha256 k3 (utf8 stringToSign)).

Definition ref_authorization
    (secretId secretKey service method host : string)
    (timestamp : Z) (date : string) (payload : sobj) : string :=
  let canonicalRequest := ref_canonical_request method host payload in
  let stringToSign := ref_string_to_sign timestamp date service canonicalRequest in
  let signature := ref_signature (ref_signing_key secretKey date service) stringToSign in
  "TC3-HMAC-SHA256 Credential=" +:+ secretId +:+ "/" +:+ date +:+ "/" +:+ service
  +:+ "/tc3_request, SignedHeaders=content-type;host, Signature=" +:+ signature.

End Reference.

(** * The code in closed form

    What the translated functions compute, written without the store;
    the lemmas on runs below prove each equal to the code. *)

(** The pairs, each behind its ampersand. *)
Fixpoint amp_concat (l : list string) : string :=
  match l with
  | [] => ""
  | p :: l' => "&" +:+ p +:+ amp_concat l'
  end.

(** The caller's object once the standard fields are written
    (utils.ts, lines 177-185). *)
Definition with_standard_fields (env : Env) (o : sobj) (p : params) : params :=
  let p := obj_set p "Region" (Leaf (get o "Region")) in
  let p := obj_set p "Nonce" (Leaf (SInt (random_nonce env))) in
  let p := obj_set p "Timestamp" (Leaf (SInt (now_unix env))) in
  let p := obj_set p "SecretId" (Leaf (get o "SecretId")) in
  let p := obj_set p "RequestClient" (Leaf (SStr "SDK_NODEJS_v0.0.1")) in
  if decide (get o "SignatureMethod" = SStr "sha256")
  then obj_set p "SignatureMethod" (Leaf (SStr "HmacSHA256"))
  else p.

Definition standard_fields : list string :=
  ["Region"; "Nonce"; "Timestamp"; "SecretId"; "RequestClient"; "SignatureMethod"].

(** The string the legacy signer signs. *)
Definition v1_string_to_sign (method : string) (o : sobj) (flat : sobj) : string :=
  method +:+ to_str (getHost (hostParams_of o) true) +:+ to_str (get o "path")
  +:+ "?" +:+ build_qstr method flat.

Section Outcomes.
Context `{Platform}.

(** The keyed digest [sign] computes for its [algorithm] argument: the
    default is taken for [undefined]; [None] where the call throws. *)
Definition sign_digest (algorithm : scalar) : option (Buffer -> Buffer -> Buffer) :=
  match algorithm with
  | SUndef => Some hmac_sha256
  | SStr alg => digest_named alg
  | _ => None
  end.

(** The value stored as [Signature] for a digest function. *)
Definition v1_signature (h : Buffer -> Buffer -> Buffer) (secretKey method : string)
    (o flat : sobj) : scalar :=
  SStr (base64 (h (utf8 secretKey) (utf8 (v1_string_to_sign method o flat)))).

(** What [tencentSign] returns or throws, as a function of the options
    object [o], the caller's parameters [p] and the location [fresh] of
    the flattened map. *)
Definition tencentSign_outcome (env : Env) (o : sobj) (p : params) (fresh : floc)
  : outcome TencentSignResult :=
  match js_or (get o "method") (SStr "POST"), get o "ServiceType" with
  | SStr m, SStr svc =>
      let Host := getHost (hostParams_of o) false in
      Ok {| r_url := getUrl (hostParams_of o) false;
            r_payload := fresh;
            r_Host := Host;
            r_Authorization :=
              ref_authorization (to_str (get o "SecretId"))
                (to_str (get o "SecretKey")) svc m (to_str Host) (now_unix env)
                (slice_0_10 (now_iso env)) (flatten p);
            r_Timestamp := now_unix env |}
  | SStr _, _ => Throw (TypeError "The first argument must be of type string")
  | _, _ => Throw (TypeError "toUpperCase is not a function")
  end.

(** The error [sign] throws for an [algorithm] it cannot use. *)
Definition sign_error (algorithm : scalar) : error :=
  match algorithm with
  | SStr alg => InvalidDigest alg
  | _ => TypeError "The algorithm argument must be of type string"
  end.

(** What [tencentSignV1] leaves in the flattened map and returns, or
    what it throws, as a function of the options object [o] and of the
    flattened map [flat] before the signature is stored. *)
Definition tencentSignV1_outcome (o flat : sobj)
  : outcome (sobj * TencentSignResultV1) :=
  match js_or (get o "method") (SStr "POST") with
  | SStr m =>
      match get o "SecretKey" with
      | SStr key =>
          match sign_digest (get o "SignatureMethod") with
          | Some h =>
              let signed :=
                obj_set flat "Signature"
                  (v1_signature h key (toUpperCase m) o flat) in
              Ok (signed,
                  {| r1_url := getUrl (hostParams_of o) true;
                     r1_method := toUpperCase m;
                     r1_signPath := qs_stringify signed |})
          | None => Throw (sign_error (get o "SignatureMethod"))
          end
      | _ => Throw (TypeError "The first argument must be of type string")
      end
  | _ => Throw (TypeError "toUpperCase is not a function")
  end.
End Outcomes.

(** ** The request assembler *)

(** The descriptor built from the result of the legacy signer (index.ts,
    lines 108-125), [merged] being the merged options. *)
Definition v1_descriptor (merged : sobj) (r : TencentSignResultV1) : reqOption :=
  let payload : option sobj := None in
  let q :=
    {| q_url := r1_url r; q_method := r1_method r; q_json := true;
       q_strictSSL := false; q_headers := None; q_body := None;
       q_form := None; q_timeout := None |} in
  let q :=
    if String.eqb (r1_method r) "POST" then set_form q None
    else set_url q (q_url q +:+ "?" +:+ qs_stringify_opt payload) in
  if truthy (get merged "timeout") then set_timeout q (get merged "timeout")
  else q.

(** What the per-call options object holds once the options are merged:
    the merged options when it is the instance's own object. *)
Definition opts_after_merge (this : CapiObject) (opts : floc) (merged ov : sobj)
  : sobj :=
  if decide (opts = options this) then merged else ov.

(** ** Outcomes *)

Definition outcome_map {A B : Type} (f : A -> B) (x : outcome A) : outcome B :=
  match x with
  | Ok a => Ok (f a)
  | Throw e => Throw e
  end.

Definition succeeded {A : Type} (x : outcome A) : bool :=
  match x with
  | Ok _ => true
  | Throw _ => false
  end.

(** The components of a [tencentSign] result that are values; the
    payload component is a reference. *)
Definition result_values (r : TencentSignResult) : string * scalar * string * Z :=
  (r_url r, r_Host r, r_Authorization r, r_Timestamp r).

(** ** Sample inputs *)

(** A platform with toy digests, to run the definitions on concrete
    inputs; every theorem below holds for any platform. *)
Definition sample_platform : Platform :=
  {| sha256 := fun b => rev b;
     hmac_sha256 := fun k m => k ++ m;
     hmac_sha1 := fun k m => m ++ k;
     hmac_other := fun _ => None;
     base64 := String.string_of_list_ascii;
     JSON_stringify := qs_stringify |}.

Definition sample_env : Env :=
  {| now_unix := 1609459200;
     now_iso := "2021-01-01T00:00:00.000Z";
     random_nonce := 12345 |}.

Definition sample_options : sobj :=
  [("ServiceType", SStr "cvm"); ("Region", SStr "ap-guangzhou");
   ("baseHost", SStr "api.qcloud.com"); ("SecretId", SStr "id");
   ("SecretKey", SStr "key")].

Definition sample_data : params :=
  [("Action", Leaf (SStr "DescribeInstances")); ("Version", Leaf (SStr "2017-03-12"));
   ("Limit", Leaf (SInt 20)); ("a_b", Leaf (SStr "x"))].

(** One parameter object at location 0 and one options object at
    location 0. *)
Definition sample_store : store :=
  {| objs := [sample_data]; flats := [sample_options]; console := [] |}.

(** The sample options with the debug flag set, and a store that holds
    them instead. *)
Definition sample_options_debug : sobj :=
  obj_set sample_options "debug" (SBool true).

Definition sample_store_debug : store :=
  {| objs := [sample_data]; flats := [sample_options_debug]; console := [] |}.

(** An instance whose options object is the one at location 0, and a
    debug-line printer. *)
Definition sample_capi : CapiObject := {| defaultOptions := 0%nat; options := 0%nat |}.

Definition sample_printer (q : reqOption) : string := q_url q.

(** A store that also holds, at location 1, the options of one call. *)
Definition sample_store_override : store :=
  {| objs := [sample_data];
     flats := [sample_options; [("Region", SStr "ap-shanghai")]];
     console := [] |}.

(** Constructor options without credentials, and a store that holds
    them at location 0. *)
Definition sample_options_nocreds : sobj := [("ServiceType", SStr "cvm")].

Definition sample_store_nocreds : store :=
  {| objs := [sample_data]; flats := [sample_options_nocreds]; console := [] |}.

(** Parameters in which a key with an underscore meets the dotted path
    of a nested value. *)
Definition sample_data_collision : params :=
  [("a_b", Leaf (SStr "x")); ("a", Obj [("b", Leaf (SStr "y"))])].

(** * More of the code in closed form *)

Section MoreOutcomes.
Context `{Platform}.

(** The console lines of one call of [tencentSign] (utils.ts, lines
    136-141): four when the call succeeds with the debug flag set, none
    otherwise. *)
Definition tencentSign_lines (env : Env) (o : sobj) (p : params)
  : list (string * string) :=
  match js_or (get o "method") (SStr "POST"), get o "ServiceType" with
  | SStr m, SStr svc =>
      if truthy (get o "debug") then
        let host := to_str (getHost (hostParams_of o) false) in
        let date := slice_0_10 (now_iso env) in
        let canonicalRequest := ref_canonical_request m host (flatten p) in
        let stringToSign :=
          ref_string_to_sign (now_unix env) date svc canonicalRequest in
        let signature :=
          ref_signature (ref_signing_key (to_str (get o "SecretKey")) date svc)
            stringToSign in
        [("CanonicalRequest", canonicalRequest);
         ("StringToSign", stringToSign);
         ("Signature", signature);
         ("Authorization",
          ref_authorization (to_str (get o "SecretId")) (to_str (get o "SecretKey"))
            svc m host (now_unix env) date (flatten p))]
      else []
  | _, _ => []
  end.
End MoreOutcomes.

(** The headers of a TC3 request (index.ts, lines 84-106): [merged] are
    the merged options, [optsv] what the options object of the call
    holds, [d] the caller's data. *)
Definition v3_headers (merged optsv : sobj) (d : params) (r : TencentSignResult)
  : list (string * value) :=
  let Action := get_param d "Action" in
  let Version := get_param d "Version" in
  let headers : list (string * value) :=
    [("Content-Type", Leaf (SStr "application/json"));
     ("Authorization", Leaf (SStr (r_Authorization r)));
     ("Host", Leaf (r_Host r));
     ("X-TC-Action", Action);
     ("X-TC-Version",
      if truthy_value Version then Version else Leaf (SStr "2018-03-21"));
     ("X-TC-Timestamp", Leaf (SInt (r_Timestamp r)));
     ("X-TC-Region", Leaf (get merged "Region"))] in
  let headers :=
    if truthy (get merged "Token")
    then obj_set headers "X-TC-Token" (Leaf (get merged "Token")) else headers in
  if truthy (get optsv "RequestClient")
  then obj_set headers "X-TC-RequestClient" (Leaf (get optsv "RequestClient"))
  else headers.

(** The descriptor of a TC3 request (index.ts, lines 79-125). *)
Definition v3_descriptor (merged optsv : sobj) (d : params) (r : TencentSignResult)
  : reqOption :=
  {| q_url := r_url r; q_method := "POST"; q_json := true; q_strictSSL := false;
     q_headers := Some (v3_headers merged optsv d r);
     q_body := Some (r_payload r); q_form := None;
     q_timeout :=
       if truthy (get merged "timeout") then Some (get merged "timeout") else None |}.

(** The console line of [request] (index.ts, lines 127-129). *)
Definition request_line (JSON_stringify_req : reqOption -> string) (merged : sobj)
    (q : outcome reqOption) : list (string * string) :=
  match q with
  | Ok q =>
      if truthy (get merged "debug")
      then [("Request Option", JSON_stringify_req q)] else []
  | Throw _ => []
  end.

(** The leaves of the items of an array whose first item has the index
    [i]: the enumeration [leaves_at] makes of an array, from any index
    on. *)
Fixpoint leaves_from (prefix : string) (i : Z) (items : list value)
    : list (string * scalar) :=
  match items with
  | [] => []
  | v :: items' =>
      leaves_at (prefix +:+ "." +:+ string_of_Z i) v
      ++ leaves_from prefix (i + 1) items'
  end.

(** ** More sample inputs *)

(** Options with a token, a time limit, the debug flag and a client
    name, in a store of their own. *)
Definition sample_options_full : sobj :=
  [("ServiceType", SStr "cvm"); ("Region", SStr "ap-guangzhou");
   ("baseHost", SStr "api.qcloud.com"); ("SecretId", SStr "id");
   ("SecretKey", SStr "key"); ("Token", SStr "tok"); ("timeout", SInt 3000);
   ("debug", SBool true); ("RequestClient", SStr "cli"); ("method", SStr "get")].

Definition sample_store_full : store :=
  {| objs := [sample_data]; flats := [sample_options_full]; console := [] |}.

(** Parameters of a file upload in the old style. *)
Definition sample_flat_upload : sobj :=
  [("file", SStr "@/tmp/x"); ("name", SStr "x"); ("", SStr "e")].

(** A nested parameter object with a [null] and an empty string among
    its leaves. *)
Definition sample_nested : params :=
  [("a", Obj [("b", Leaf SNull);
              ("c", Arr [Leaf (SStr ""); Leaf (SInt 1)])])].

(** A parameter object in which a dotted key and a nested property have
    the same dotted path. *)
Definition sample_colliding : params :=
  [("a.b", Leaf SNull); ("a", Obj [("b", Leaf (SStr "x"))])].

(** * Properties *)

(** ** The definitions on concrete inputs *)

Example getHost_v3 :
  getHost (hostParams_of [("ServiceType", SStr "cvm"); ("Region", SStr "ap-guangzhou");
                          ("baseHost", SStr "api.qcloud.com")]) false
  = SStr "cvm.ap-guangzhou.api.qcloud.com".
Proof. reflexivity. Qed.

Example getUrl_v1 :
  getUrl (hostParams_of [("ServiceType", SStr "cvm"); ("Region", SStr "ap-guangzhou");
                         ("baseHost", SStr "api.qcloud.com")]) true
  = "https://cvm.api.qcloud.com/".
Proof. reflexivity. Qed.

Example toUpperCase_post : toUpperCase "post" = "POST".
Proof. reflexivity. Qed.

Example indexOf_examples :
  indexOf "_" "a_b_c" = 1 /\ indexOf "_" "_ab" = 0 /\ indexOf "_" "abc" = -1.
Proof. repeat split. Qed.

Example flatten_nested :
  flatten [("a", Obj [("b", Leaf (SInt 1)); ("c", Arr [Leaf SNull; Leaf (SStr "")])]);
           ("d", Leaf (SStr "x"))]
  = [("a.b", SInt 1); ("a.c.0", SNull); ("a.c.1", SStr ""); ("d", SStr "x")].
Proof. reflexivity. Qed.

Example sort_keys_example :
  sort_keys ["b"; "a_b"; "a.b"; "Z"; ""] = [""; "Z"; "a.b"; "a_b"; "b"].
Proof. reflexivity. Qed.

Example build_qstr_example :
  build_qstr "POST" [("Region", SStr "ap-guangzhou"); ("Nonce", SInt 7);
                     ("file", SStr "@x"); ("_k", SNull); ("", SStr "e")]
  = "Nonce=7&Region=ap-guangzhou&_k=".
Proof. reflexivity. Qed.

Example qs_stringify_example :
  qs_stringify [("a_b", SStr "x y"); ("n", SInt 3); ("u", SUndef)] = "a_b=x%20y&n=3&u=".
Proof. reflexivity. Qed.

Example hex_example : hex (utf8 "Az~") = "417a7e".
Proof. reflexivity. Qed.

(** ** Objects: lookup and update *)

Section ObjectFacts.
Context {V : Type}.
Implicit Types (o : list (string * V)) (k : string) (v : V).

Lemma obj_lookup_set_eq o k v : obj_lookup (obj_set o k v) k = Some v.
Proof.
  induction o as [|[k' v'] o IH]; simpl.
  - by rewrite String.eqb_refl.
  - destruct (String.eqb k' k) eqn:E; simpl; by rewrite E.
Qed.

Lemma obj_lookup_set_ne o k k' v :
  k ≠ k' -> obj_lookup (obj_set o k v) k' = obj_lookup o k'.
Proof.
  intros Hne. induction o as [|[k0 v0] o IH]; simpl.
  - by apply String.eqb_neq in Hne as ->.
  - destruct (String.eqb k0 k) eqn:E; simpl; [|by rewrite IH].
    apply String.eqb_eq in E as ->.
    by apply String.eqb_neq in Hne as ->.
Qed.

Lemma obj_lookup_app o1 o2 k :
  obj_lookup (o1 ++ o2) k =
  match obj_lookup o1 k with
  | Some v => Some v
  | None => obj_lookup o2 k
  end.
Proof.
  induction o1 as [|[k' v'] o1 IH]; simpl; [done|].
  by destruct (String.eqb k' k).
Qed.

Lemma obj_lookup_None o k : obj_lookup o k = None <-> k ∉ obj_keys o.
Proof.
  induction o as [|[k' v'] o IH]; simpl.
  - split; [intros _; apply not_elem_of_nil | done].
  - rewrite not_elem_of_cons. destruct (String.eqb_spec k' k) as [->|Hne].
    + split; [done | by intros [? _]].
    + rewrite IH. split; [by intros ?; split | by intros [_ ?]].
Qed.

Lemma obj_lookup_Some_In o k v : obj_lookup o k = Some v -> In (k, v) o.
Proof.
  induction o as [|[k' v'] o IH]; simpl; [done|].
  destruct (String.eqb_spec k' k) as [->|Hne]; [|by right; auto].
  intros [= ->]. by left.
Qed.

Lemma obj_set_fresh o k v : k ∉ obj_keys o -> obj_set o k v = o ++ [(k, v)].
Proof.
  induction o as [|[k' v'] o IH]; simpl; [done|].
  rewrite not_elem_of_cons. intros [Hne Hk].
  apply not_eq_sym, String.eqb_neq in Hne. rewrite Hne. by rewrite IH.
Qed.

Lemma obj_set_same o k v : obj_lookup o k = Some v -> obj_set o k v = o.
Proof.
  induction o as [|[k' v'] o IH]; simpl; [done|].
  destruct (String.eqb_spec k' k) as [->|Hne]; [by intros [= ->]|].
  intros Hk. by rewrite IH.
Qed.

Lemma obj_keys_set o k v :
  obj_keys (obj_set o k v) =
  if decide (k ∈ obj_keys o) then obj_keys o else obj_keys o ++ [k].
Proof.
  induction o as [|[k' v'] o IH].
  - destruct (decide (k ∈ obj_keys [])) as [Hin|_]; [|done].
    by apply elem_of_nil in Hin.
  - cbn [obj_set].
    change (obj_keys ((k', v') :: o)) with (k' :: obj_keys o).
    destruct (String.eqb_spec k' k) as [->|Hne].
    + destruct (decide (k ∈ k :: obj_keys o)) as [_|Hin]; [done|].
      exfalso. apply Hin. by left.
    + change (obj_keys ((k', v') :: obj_set o k v))
        with (k' :: obj_keys (obj_set o k v)).
      rewrite IH.
      destruct (decide (k ∈ obj_keys o)) as [Hin|Hin],
               (decide (k ∈ k' :: obj_keys o)) as [Hin'|Hin']; try done.
      * exfalso. apply Hin'. by right.
      * apply elem_of_cons in Hin' as [?|?]; congruence.
Qed.

Lemma obj_keys_set_NoDup o k v :
  NoDup (obj_keys o) -> NoDup (obj_keys (obj_set o k v)).
Proof.
  intros Hnd. rewrite obj_keys_set. case_decide; [done|].
  apply NoDup_app. split_and!; [done | | apply NoDup_singleton].
  intros x Hx Hx'. apply list_elem_of_singleton in Hx' as ->. done.
Qed.

(** Writing a list of distinct new properties appends them. *)
Lemma fold_set_fresh (l acc : list (string * V)) :
  NoDup (obj_keys (acc ++ l)) ->
  fold_left (fun a kv => obj_set a (fst kv) (snd kv)) l acc = acc ++ l.
Proof.
  revert acc. induction l as [|[k v] l IH]; intros acc Hnd; simpl.
  - by rewrite app_nil_r.
  - unfold obj_keys in Hnd. rewrite map_app in Hnd. simpl in Hnd.
    assert (k ∉ obj_keys acc) as Hk.
    { apply NoDup_app in Hnd as (_ & Hdis & _). intros Hin.
      apply (Hdis k Hin). by left. }
    rewrite (obj_set_fresh _ _ _ Hk), IH; [by rewrite <- app_assoc|].
    unfold obj_keys. rewrite <- app_assoc, map_app. done.
Qed.

Lemma fold_set_NoDup (l acc : list (string * V)) :
  NoDup (obj_keys acc) ->
  NoDup (obj_keys (fold_left (fun a kv => obj_set a (fst kv) (snd kv)) l acc)).
Proof.
  revert acc. induction l as [|[k v] l IH]; intros acc Hnd; simpl; [done|].
  by apply IH, obj_keys_set_NoDup.
Qed.

(** After a sequence of writes a property holds what was written last. *)
Lemma fold_set_lookup (l acc : list (string * V)) k :
  obj_lookup (fold_left (fun a kv => obj_set a (fst kv) (snd kv)) l acc) k =
  match obj_lookup (rev l) k with
  | Some v => Some v
  | None => obj_lookup acc k
  end.
Proof.
  revert acc. induction l as [|[k' v'] l IH]; intros acc; simpl; [done|].
  rewrite IH, obj_lookup_app. destruct (obj_lookup (rev l) k); [done|].
  simpl. destruct (String.eqb_spec k' k) as [->|Hne].
  - apply obj_lookup_set_eq.
  - by apply obj_lookup_set_ne.
Qed.
End ObjectFacts.

(** ** Flattening *)

Lemma leaves_as_params (f : sobj) : leaves (as_params f) = f.
Proof.
  unfold leaves, as_params. induction f as [|[k s] f IH]; simpl; [done|].
  by rewrite IH.
Qed.

Lemma flatten_NoDup (m : params) : NoDup (obj_keys (flatten m)).
Proof. apply fold_set_NoDup. constructor. Qed.

Lemma flatten_flat (f : sobj) :
  NoDup (obj_keys f) -> flatten (as_params f) = f.
Proof.
  intros Hnd. unfold flatten. rewrite leaves_as_params.
  by rewrite fold_set_fresh.
Qed.

Lemma flatten_lookup (m : params) (k : string) :
  obj_lookup (flatten m) k = obj_lookup (rev (leaves m)) k.
Proof.
  unfold flatten. rewrite fold_set_lookup.
  by destruct (obj_lookup (rev (leaves m)) k).
Qed.

Lemma obj_lookup_rev_Some {V : Type} (l : list (string * V)) (k : string) (v : V) :
  In (k, v) l -> is_Some (obj_lookup (rev l) k).
Proof.
  intros Hin. destruct (obj_lookup (rev l) k) eqn:E; [by eexists|].
  apply obj_lookup_None in E. exfalso. apply E.
  unfold obj_keys. apply list_elem_of_In, in_map_iff.
  exists (k, v). split; [done|]. by apply in_rev in Hin.
Qed.

(** Induction on a parameter value, with the nested values of an object
    and of an array as induction hypotheses. *)
Lemma value_nested_ind (P : value -> Prop) :
  (forall s, P (Leaf s)) ->
  (forall fields, Forall (fun kv => P (snd kv)) fields -> P (Obj fields)) ->
  (forall items, Forall P items -> P (Arr items)) ->
  forall v, P v.
Proof.
  intros HL HO HA. fix IH 1. intros [s|fields|items].
  - apply HL.
  - apply HO. induction fields as [|[k v] fields IHf]; constructor;
      [apply IH | apply IHf].
  - apply HA. induction items as [|v items IHi]; constructor;
      [apply IH | apply IHi].
Qed.

(** The leaves the flattener enumerates below the properties of an
    object and below the items of an array. *)
Lemma leaves_at_Obj (prefix : string) (fields : list (string * value)) :
  leaves_at prefix (Obj fields) =
  flat_map (fun kv => leaves_at (prefix +:+ "." +:+ fst kv) (snd kv)) fields.
Proof.
  cbn [leaves_at]. induction fields as [|[k v] fields IH]; [done|].
  cbn [flat_map fst snd]. by rewrite IH.
Qed.

Lemma leaves_at_Arr (prefix : string) (items : list value) :
  leaves_at prefix (Arr items) = leaves_from prefix 0 items.
Proof.
  cbn [leaves_at]. generalize 0. induction items as [|v items IH]; intros i;
    [done|].
  cbn [leaves_from]. by rewrite IH.
Qed.

Lemma leaves_from_In (prefix : string) (items : list value) (i : Z)
    (key : string) (s : scalar) :
  In (key, s) (leaves_from prefix i items) <->
  exists (n : nat) (v : value),
    nth_error items n = Some v
    /\ In (key, s) (leaves_at (prefix +:+ "." +:+ string_of_Z (i + Z.of_nat n)) v).
Proof.
  revert i. induction items as [|v items IH]; intros i; cbn [leaves_from].
  - split; [done|]. intros ([|n] & v & Hn & _); discriminate.
  - rewrite in_app_iff, IH. split.
    + intros [Hin | (n & v' & Hn & Hin)].
      * exists 0%nat, v. split; [done|]. by rewrite Z.add_0_r.
      * exists (S n), v'. split; [done|].
        by replace (i + Z.of_nat (S n)) with (i + 1 + Z.of_nat n) by lia.
    + intros ([|n] & v' & Hn & Hin).
      * left. injection Hn as <-. by rewrite Z.add_0_r in Hin.
      * right. exists n, v'. split; [done|].
        by replace (i + 1 + Z.of_nat n) with (i + Z.of_nat (S n)) by lia.
Qed.

(** The flattener enumerates a leaf below a value exactly when the
    value has that leaf at that dotted path. *)
Lemma leaves_at_reaches (v : value) (prefix key : string) (s : scalar) :
  In (key, s) (leaves_at prefix v) <-> reaches prefix v key s.
Proof.
  revert prefix. induction v as [s0|fields IH|items IH] using value_nested_ind;
    intros prefix.
  - cbn [leaves_at]. split.
    + intros [[= <- <-]|[]]. constructor.
    + intros Hr. inversion Hr; subst. by left.
  - rewrite leaves_at_Obj, in_flat_map. rewrite Forall_forall in IH. split.
    + intros ([k v] & Hkv & Hin). cbn [fst snd] in Hin.
      apply (reaches_child _ _ k v); [done|].
      apply (IH (k, v)); [by apply list_elem_of_In | done].
    + intros Hr. inversion Hr as [|? ? k v ? ? Hkv Hr'|]; subst.
      exists (k, v). split; [done|]. cbn [fst snd].
      apply (IH (k, v)); [by apply list_elem_of_In | done].
  - rewrite leaves_at_Arr, leaves_from_In. rewrite Forall_forall in IH. split.
    + intros (n & v & Hn & Hin). apply (reaches_index _ _ n v); [done|].
      apply (IH v); [|done]. apply list_elem_of_In. by eapply nth_error_In.
    + intros Hr. inversion Hr as [| |? ? n v ? ? Hn Hr']; subst.
      exists n, v. split; [done|].
      apply (IH v); [|done]. apply list_elem_of_In. by eapply nth_error_In.
Qed.

Lemma leaves_has_leaf (m : params) (key : string) (s : scalar) :
  In (key, s) (leaves m) <-> has_leaf m key s.
Proof.
  unfold leaves, has_leaf. rewrite in_flat_map. split.
  - intros ([k v] & Hkv & Hin). exists k, v. split; [done|].
    by apply leaves_at_reaches.
  - intros (k & v & Hkv & Hr). exists (k, v). split; [done|].
    by apply leaves_at_reaches.
Qed.

(** A property that was found holds a value that was written. *)
Lemma obj_lookup_In {V : Type} (l : list (string * V)) (k : string) (v : V) :
  obj_lookup l k = Some v -> In (k, v) l.
Proof.
  induction l as [|[k' v'] l IH]; simpl; [done|].
  destruct (String.eqb_spec k' k) as [->|Hne].
  - intros [= ->]. by left.
  - intros Hl. right. by apply IH.
Qed.

(** The key of the flattened map holds the value of a leaf at that
    path, and every path of a leaf is a key. *)
Lemma flatten_lookup_has_leaf (m : params) (k : string) (s : scalar) :
  obj_lookup (flatten m) k = Some s -> has_leaf m k s.
Proof.
  rewrite flatten_lookup. intros Hl. apply leaves_has_leaf, in_rev.
  by apply obj_lookup_In.
Qed.

Lemma has_leaf_flatten_key (m : params) (k : string) (s : scalar) :
  has_leaf m k s -> is_Some (obj_lookup (flatten m) k).
Proof.
  intros Hl. rewrite flatten_lookup. apply (obj_lookup_rev_Some _ _ s).
  by apply leaves_has_leaf.
Qed.

(** C7 as stated does not hold.  Where a dotted key and a nested
    property have the same dotted path, the flattened map has one
    property for the two leaves: the [null] the caller gave under
    [a.b] is a leaf of the parameter object and is in no property of the
    flattened map. *)
Lemma flatten_drops_a_colliding_null :
  has_leaf sample_colliding "a.b" SNull
  /\ flatten sample_colliding = [("a.b", SStr "x")]
  /\ ~ (exists k, obj_lookup (flatten sample_colliding) k = Some SNull).
Proof.
  split_and!.
  - apply leaves_has_leaf. vm_compute. by left.
  - reflexivity.
  - intros [k Hk]. apply obj_lookup_In in Hk.
    vm_compute in Hk. by destruct Hk as [[= _ ?]|[]].
Qed.

(** C7, amended.  Flattening is idempotent: flattening the flattened
    map again gives the same map.  The dotted path of every leaf of the
    parameter object, a [null] or an empty string included, is a key of
    the flattened map; every key of the flattened map holds the value
    of a leaf at that path; so a leaf keeps its value, whatever the
    value is, unless another leaf with another value has the same
    dotted path. *)
Theorem flatten_idempotent (m : params) :
  flatten (as_params (flatten m)) = flatten m
  /\ (forall k s, has_leaf m k s -> is_Some (obj_lookup (flatten m) k))
  /\ (forall k s, obj_lookup (flatten m) k = Some s -> has_leaf m k s)
  /\ (forall k s, has_leaf m k s ->
      (forall s', has_leaf m k s' -> s' = s) ->
      obj_lookup (flatten m) k = Some s).
Proof.
  split_and!.
  - apply flatten_flat, flatten_NoDup.
  - apply has_leaf_flatten_key.
  - apply flatten_lookup_has_leaf.
  - intros k s Hl Huniq.
    destruct (has_leaf_flatten_key m k s Hl) as [s' Hs'].
    rewrite Hs'. f_equal. by apply Huniq, flatten_lookup_has_leaf.
Qed.

Lemma flatten_idempotent_witness :
  has_leaf sample_nested "a.b" SNull
  /\ has_leaf sample_nested "a.c.0" (SStr "")
  /\ obj_lookup (flatten sample_nested) "a.b" = Some SNull
  /\ obj_lookup (flatten sample_nested) "a.c.0" = Some (SStr "")
  /\ flatten (as_params (flatten sample_nested)) = flatten sample_nested.
Proof.
  assert (forall k s, has_leaf sample_nested k s ->
          In (k, s) [("a.b", SNull); ("a.c.0", SStr ""); ("a.c.1", SInt 1)])
    as Hall by (intros k s Hl; by apply leaves_has_leaf in Hl).
  assert (has_leaf sample_nested "a.b" SNull) as Hb
    by (apply leaves_has_leaf; vm_compute; tauto).
  assert (has_leaf sample_nested "a.c.0" (SStr "")) as Hc
    by (apply leaves_has_leaf; vm_compute; tauto).
  destruct (flatten_idempotent sample_nested) as (Hidem & _ & _ & Hkeep).
  split_and!; [done | done | | | done].
  - apply (Hkeep _ _ Hb). intros s' Hs'. apply Hall in Hs'.
    by destruct Hs' as [[= <-]|[[= ?]|[[= ?]|[]]]].
  - apply (Hkeep _ _ Hc). intros s' Hs'. apply Hall in Hs'.
    by destruct Hs' as [[= ?]|[[= <-]|[[= ?]|[]]]].
Defined.

(** ** Strings *)

Lemma append_cons (c : ascii) (s1 s2 : string) :
  String c s1 +:+ s2 = String c (s1 +:+ s2).
Proof. reflexivity. Qed.

Lemma append_nil_l (s : string) : "" +:+ s = s.
Proof. reflexivity. Qed.

Lemma append_nil_r (s : string) : s +:+ "" = s.
Proof.
  induction s as [|c s IH]; [reflexivity|]. by rewrite append_cons, IH.
Qed.

Lemma append_assoc (s1 s2 s3 : string) : (s1 +:+ s2) +:+ s3 = s1 +:+ s2 +:+ s3.
Proof.
  induction s1 as [|c s1 IH]; [reflexivity|]. by rewrite !append_cons, IH.
Qed.

(** ** Sorting *)

Lemma insert_key_Permutation (k : string) (l : list string) :
  Permutation (k :: l) (insert_key k l).
Proof.
  induction l as [|k' l IH]; simpl; [done|].
  destruct (String.leb k k'); [done|].
  rewrite <- IH. apply perm_swap.
Qed.

Lemma sort_keys_Permutation (l : list string) : Permutation l (sort_keys l).
Proof.
  induction l as [|k l IH]; simpl; [done|].
  rewrite <- insert_key_Permutation. by constructor.
Qed.

Lemma insert_key_sorted (k : string) (l : list string) :
  StronglySorted String.le l -> StronglySorted String.le (insert_key k l).
Proof.
  induction 1 as [|k' l Hl IH Hall]; simpl.
  - repeat constructor.
  - destruct (String.leb k k') eqn:E.
    + constructor; [by constructor|]. constructor.
      * unfold String.le. by rewrite E.
      * eapply Forall_impl; [exact Hall|]. intros x Hx.
        etrans; [|exact Hx]. unfold String.le. by rewrite E.
    + constructor; [done|].
      rewrite <- insert_key_Permutation. constructor; [|done].
      destruct (total String.le k k') as [Hle|Hle]; [|done].
      unfold String.le in Hle. by rewrite E in Hle.
Qed.

Lemma sort_keys_sorted (l : list string) : StronglySorted String.le (sort_keys l).
Proof.
  induction l as [|k l IH]; simpl; [constructor|].
  by apply insert_key_sorted.
Qed.

(** ** The canonical query string *)

Lemma starts_with_at_begins (v : scalar) : starts_with_at v = begins_with_at v.
Proof.
  destruct v as [| |b|z| |s]; try done.
  - by destruct b.
  - unfold starts_with_at. simpl. by destruct (negb (z =? 0)).
  - unfold starts_with_at. simpl. by destruct s.
Qed.

(** One round of the callback appends the pair of the key, if any. *)
Lemma qstr_step_pair (method : string) (payload : sobj) (q k : string) :
  qstr_step method payload q k =
  q +:+ amp_concat
          (omap (canonical_pair method payload) (filter (fun k => k ≠ "") [k])).
Proof.
  unfold qstr_step. destruct (String.eqb_spec k "") as [->|Hne].
  - by rewrite append_nil_r.
  - rewrite filter_cons_True by done. rewrite filter_nil. simpl.
    unfold canonical_pair, canonical_key, key_is_rewritten.
    rewrite starts_with_at_begins.
    set (k' := if negb (indexOf "_" k =? 0) then replace_all "_" "." k else k).
    destruct (String.eqb method "POST" && begins_with_at (get payload k')).
    + by rewrite append_nil_r.
    + simpl. rewrite append_nil_r.
      by destruct (get payload k') as [| |[]| | |].
Qed.

Lemma amp_concat_app (l1 l2 : list string) :
  amp_concat (l1 ++ l2) = amp_concat l1 +:+ amp_concat l2.
Proof.
  induction l1 as [|p l1 IH]; simpl; [done|].
  by rewrite IH, !append_assoc.
Qed.

Lemma qstr_fold (method : string) (payload : sobj) (keys : list string) (q : string) :
  fold_left (qstr_step method payload) keys q =
  q +:+ amp_concat
          (omap (canonical_pair method payload) (filter (fun k => k ≠ "") keys)).
Proof.
  revert q. induction keys as [|k keys IH]; intros q; simpl.
  - by rewrite append_nil_r.
  - rewrite IH, qstr_step_pair, append_assoc, <- amp_concat_app. f_equal. f_equal.
    rewrite <- omap_app, <- filter_app. done.
Qed.

Lemma join_cons (sep p p' : string) (l : list string) :
  join sep (p :: p' :: l) = p +:+ sep +:+ join sep (p' :: l).
Proof. reflexivity. Qed.

Lemma amp_concat_join (p : string) (l : list string) :
  p +:+ amp_concat l = join "&" (p :: l).
Proof.
  revert p. induction l as [|p' l IH]; intros p.
  - apply append_nil_r.
  - rewrite join_cons, <- IH. reflexivity.
Qed.

(** Dropping the first ampersand leaves the pairs joined by ampersands. *)
Lemma slice1_amp_concat (l : list string) : slice1 (amp_concat l) = join "&" l.
Proof.
  destruct l as [|p l]; [reflexivity|].
  rewrite <- amp_concat_join. reflexivity.
Qed.

Lemma build_qstr_canonical (method : string) (payload : sobj) :
  build_qstr method payload = canonical_query method payload.
Proof.
  unfold build_qstr, canonical_query, canonical_pairs.
  rewrite qstr_fold. apply slice1_amp_concat.
Qed.

(** C2. The query string the legacy signer builds is the one described:
    the keys of the flattened map are visited in sorted order (the
    visiting order is sorted and a rearrangement of the keys), the empty
    key is skipped, a key is rewritten exactly when [indexOf('_')] is
    truthy, a pair is skipped when the method is POST and the value found
    begins with an at sign, [undefined], [null] and [NaN] give the empty
    string, and the pairs are joined by ampersands. *)
Theorem build_qstr_as_described (method : string) (payload : sobj) :
  build_qstr method payload
  = join "&" (omap (canonical_pair method payload)
                (filter (fun k => k ≠ "") (sort_keys (obj_keys payload))))
  /\ StronglySorted String.le (sort_keys (obj_keys payload))
  /\ Permutation (obj_keys payload) (sort_keys (obj_keys payload)).
Proof.
  split_and!.
  - apply build_qstr_canonical.
  - apply sort_keys_sorted.
  - apply sort_keys_Permutation.
Qed.

(** ** Running computations *)

Lemma bind_run {A B : Type} (m : M A) (f : A -> M B) (st : store) :
  (m ≫= f) st =
  match m st with
  | (st', Ok a) => f a st'
  | (st', Throw e) => (st', Throw e)
  end.
Proof. reflexivity. Qed.

Lemma ret_run {A : Type} (a : A) (st : store) : (mret a : M A) st = (st, Ok a).
Proof. reflexivity. Qed.

Lemma read_flat_run (l : floc) (o : sobj) (st : store) :
  flats st !! l = Some o -> read_flat l st = (st, Ok o).
Proof. intros Hl. unfold read_flat. by rewrite Hl. Qed.

Lemma read_params_run (l : ploc) (p : params) (st : store) :
  objs st !! l = Some p -> read_params l st = (st, Ok p).
Proof. intros Hl. unfold read_params. by rewrite Hl. Qed.

Lemma lookup_fresh {A : Type} (l : list A) (x : A) : (l ++ [x]) !! length l = Some x.
Proof. by apply list_lookup_middle. Qed.

Section Runs.
Context `{Platform}.

Lemma sign_default_run (s : string) (key : Buffer) (st : store) :
  sign (SStr s) key SUndef st = (st, Ok (hmac_sha256 key (utf8 s))).
Proof. reflexivity. Qed.

Lemma authorization_normal (secretId date svc signature : string) :
  "TC3-HMAC-SHA256" +:+ " Credential=" +:+ secretId +:+ "/"
    +:+ (date +:+ "/" +:+ svc +:+ "/tc3_request")
    +:+ ", SignedHeaders=" +:+ "content-type;host" +:+ ", Signature=" +:+ signature
  = "TC3-HMAC-SHA256 Credential=" +:+ secretId +:+ "/" +:+ date +:+ "/" +:+ svc
    +:+ "/tc3_request, SignedHeaders=content-type;host, Signature=" +:+ signature.
Proof. rewrite !append_assoc. reflexivity. Qed.

(** Every run of [tencentSign] on stored objects: the parameter objects
    are as before, the flattened map is the one new object, and only
    console lines are added besides. *)
Lemma tencentSign_total (env : Env) (payload : ploc) (options : floc)
    (st : store) (o : sobj) (p : params) :
  flats st !! options = Some o ->
  objs st !! payload = Some p ->
  exists lines,
    tencentSign env payload options st =
      ({| objs := objs st; flats := flats st ++ [flatten p];
          console := console st ++ lines |},
       tencentSign_outcome env o p (length (flats st))).
Proof.
  intros Ho Hp. unfold tencentSign_outcome, tencentSign.
  rewrite bind_run, (read_flat_run _ _ _ Ho).
  rewrite bind_run, (read_params_run _ _ _ Hp).
  rewrite bind_run. cbn [alloc_flat].
  destruct (js_or (get o "method") (SStr "POST")) as [| |b|z| |m] eqn:Hm;
    try (exists []; rewrite app_nil_r; reflexivity).
  rewrite bind_run. cbn [toUpperCase_of]. rewrite ret_run.
  rewrite bind_run, (read_flat_run _ (flatten p)) by apply lookup_fresh.
  rewrite bind_run, sign_default_run.
  destruct (get o "ServiceType") as [| |b|z| |svc] eqn:Hsvc;
    try (exists []; rewrite app_nil_r; reflexivity).
  rewrite bind_run, sign_default_run, bind_run, sign_default_run.
  assert (forall st0 : store, (mret tt : M unit) st0 = (st0, Ok tt)) as Hret
    by reflexivity.
  destruct (truthy (get o "debug")).
  - eexists [_; _; _; _]. rewrite bind_run, bind_run. cbn [logger].
    rewrite bind_run. cbn [logger]. rewrite bind_run. cbn [logger].
    cbn [objs flats console]. rewrite <- !app_assoc.
    cbn [app]. rewrite ret_run. f_equal. f_equal. f_equal.
    rewrite authorization_normal.
    unfold ref_authorization, ref_signature, ref_signing_key,
      ref_string_to_sign, ref_canonical_request, sha256_hex, join.
    cbn [String.concat to_str]. rewrite !append_assoc. reflexivity.
  - exists []. rewrite bind_run, Hret, ret_run, app_nil_r. f_equal. f_equal. f_equal.
    rewrite authorization_normal.
    unfold ref_authorization, ref_signature, ref_signing_key,
      ref_string_to_sign, ref_canonical_request, sha256_hex, join.
    cbn [String.concat to_str]. rewrite !append_assoc. reflexivity.
Qed.

Lemma sign_run (s : string) (key : Buffer) (algorithm : scalar)
    (h : Buffer -> Buffer -> Buffer) (st : store) :
  sign_digest algorithm = Some h ->
  sign (SStr s) key algorithm st = (st, Ok (h key (utf8 s))).
Proof.
  intros Hh. unfold sign. destruct algorithm as [| | | | |alg]; simplify_eq/=.
  - reflexivity.
  - rewrite bind_run. by rewrite Hh.
Qed.

Lemma write_param_run (l : ploc) (k : string) (v : value) (p : params) (st : store) :
  objs st !! l = Some p ->
  write_param l k v st = (with_obj st l (obj_set p k v), Ok tt).
Proof. intros Hl. unfold write_param. by rewrite Hl. Qed.

Lemma with_obj_lookup (st : store) (l : ploc) (p x : params) :
  objs st !! l = Some p -> objs (with_obj st l x) !! l = Some x.
Proof.
  intros Hl. apply list_lookup_insert_eq. by eapply lookup_lt_Some.
Qed.

Lemma with_obj_twice (st : store) (l : ploc) (x y : params) :
  with_obj (with_obj st l x) l y = with_obj st l y.
Proof. unfold with_obj. simpl. by rewrite list_insert_insert_eq. Qed.

(** Writing a property of a stored parameter object that was itself
    just written. *)
Lemma write_param_again (l : ploc) (k : string) (v : value) (p x : params)
    (st : store) :
  objs st !! l = Some p ->
  write_param l k v (with_obj st l x) = (with_obj st l (obj_set x k v), Ok tt).
Proof.
  intros Hl.
  rewrite (write_param_run _ _ _ x) by by eapply with_obj_lookup.
  by rewrite with_obj_twice.
Qed.

Lemma sign_throw (s : string) (key : Buffer) (algorithm : scalar) (st : store) :
  sign_digest algorithm = None ->
  sign (SStr s) key algorithm st = (st, Throw (sign_error algorithm)).
Proof.
  intros Hh. unfold sign.
  destruct algorithm as [| |b|z| |alg]; simplify_eq/=; try reflexivity.
  rewrite bind_run. by rewrite Hh.
Qed.

(** Every run of [tencentSignV1] on stored objects: the caller's object
    receives the standard fields, one object is added for the flattened
    map, and nothing else changes. *)
Lemma tencentSignV1_total (env : Env) (payload : ploc) (options : floc)
    (st : store) (o : sobj) (p : params) :
  flats st !! options = Some o ->
  objs st !! payload = Some p ->
  let sent := with_standard_fields env o p in
  let flat := flatten sent in
  tencentSignV1 env payload options st =
    ({| objs := <[payload := sent]> (objs st);
        flats := flats st ++ [match tencentSignV1_outcome o flat with
                              | Ok (signed, _) => signed
                              | Throw _ => flat
                              end];
        console := console st |},
     match tencentSignV1_outcome o flat with
     | Ok (_, r) => Ok r
     | Throw e => Throw e
     end).
Proof.
  intros Ho Hp sent flat. unfold tencentSignV1.
  rewrite bind_run, (read_flat_run _ _ _ Ho).
  rewrite bind_run, (write_param_run _ _ _ _ _ Hp).
  do 4 rewrite bind_run, (write_param_again _ _ _ _ _ _ Hp).
  assert (forall x : params,
    (if decide (get o "SignatureMethod" = SStr "sha256")
     then write_param payload "SignatureMethod" (Leaf (SStr "HmacSHA256"))
     else mret tt) (with_obj st payload x)
    = (with_obj st payload
         (if decide (get o "SignatureMethod" = SStr "sha256")
          then obj_set x "SignatureMethod" (Leaf (SStr "HmacSHA256")) else x),
       Ok tt)) as Hsm.
  { intros x. case_decide; [|reflexivity].
    by rewrite (write_param_again _ _ _ _ _ _ Hp). }
  rewrite bind_run, Hsm.
  match goal with |- context [with_obj st payload ?x] => change x with sent end.
  rewrite bind_run, (read_params_run _ sent) by by eapply with_obj_lookup.
  rewrite bind_run. cbn [alloc_flat with_obj flats objs console]. fold flat.
  set (st1 := {| objs := <[payload := sent]> (objs st);
                 flats := flats st ++ [flat]; console := console st |}).
  assert (flats st1 !! length (flats st) = Some flat) as Hflat
    by apply lookup_fresh.
  rewrite bind_run, (read_flat_run _ _ _ Hflat).
  unfold tencentSignV1_outcome.
  destruct (js_or (get o "method") (SStr "POST")) as [| |b|z| |m] eqn:Hm;
    try reflexivity.
  rewrite bind_run. cbn [toUpperCase_of]. rewrite ret_run.
  destruct (get o "SecretKey") as [| |b|z| |key] eqn:Hkey; try reflexivity.
  rewrite bind_run. cbn [Buffer_from]. rewrite ret_run.
  destruct (sign_digest (get o "SignatureMethod")) as [h|] eqn:Hh.
  - rewrite bind_run, (sign_run _ _ _ _ _ Hh).
    unfold write_flat. rewrite bind_run, bind_run, (read_flat_run _ _ _ Hflat).
    unfold store_flat. rewrite Hflat.
    set (signed := obj_set flat "Signature"
                     (v1_signature h key (toUpperCase m) o flat)).
    match goal with |- context [with_flat st1 _ ?x] => change x with signed end.
    assert (with_flat st1 (length (flats st)) signed
            = {| objs := <[payload := sent]> (objs st);
                 flats := flats st ++ [signed]; console := console st |}) as ->.
    { unfold with_flat, st1. cbn [flats objs console].
      by rewrite insert_app_r_alt, Nat.sub_diag. }
    rewrite bind_run, (read_flat_run _ signed) by apply lookup_fresh.
    reflexivity.
  - rewrite bind_run, (sign_throw _ _ _ _ Hh). reflexivity.
Qed.

(** ** The request assembler *)

Lemma assign_at_run (target source : floc) (t s : sobj) (st : store) :
  flats st !! source = Some s ->
  flats st !! target = Some t ->
  assign_at target source st = (with_flat st target (assign t s), Ok target).
Proof.
  intros Hs Ht. unfold assign_at.
  rewrite bind_run, (read_flat_run _ _ _ Hs).
  rewrite bind_run, (read_flat_run _ _ _ Ht).
  rewrite bind_run. unfold store_flat. rewrite Ht. reflexivity.
Qed.

Lemma Capi_new_total (options : floc) (ov : sobj) (st : store) :
  flats st !! options = Some ov ->
  Capi_new options st =
    ({| objs := objs st;
        flats := flats st ++ [assign defaultOptions_init ov];
        console := console st |},
     Ok {| defaultOptions := length (flats st); options := length (flats st) |}).
Proof.
  intros Hov. unfold Capi_new. rewrite bind_run. cbn [alloc_flat].
  rewrite bind_run.
  rewrite (assign_at_run _ _ defaultOptions_init ov).
  - unfold with_flat. cbn [objs flats console].
    rewrite insert_app_r_alt, Nat.sub_diag by done. reflexivity.
  - by apply lookup_app_l_Some.
  - apply lookup_fresh.
Qed.

Lemma lookup_after_merge (this : CapiObject) (opts : floc) (o ov merged : sobj)
    (l : list sobj) :
  l !! options this = Some o ->
  l !! opts = Some ov ->
  <[options this := merged]> l !! opts = Some (opts_after_merge this opts merged ov).
Proof.
  intros Ho Hov. unfold opts_after_merge. case_decide as Heq.
  - rewrite Heq. apply list_lookup_insert_eq. by eapply lookup_lt_Some.
  - rewrite list_lookup_insert_ne by done. done.
Qed.

(** Every run of [request] that takes the legacy path. *)
Lemma request_v1_total (JSON_stringify_req : reqOption -> string)
    (env : Env) (this : CapiObject) (data : ploc) (opts_arg : option floc)
    (st : store) (o ov : sobj) (d : params) :
  let opts := default (defaultOptions this) opts_arg in
  flats st !! options this = Some o ->
  flats st !! opts = Some ov ->
  objs st !! data = Some d ->
  let merged := assign o ov in
  truthy (get (opts_after_merge this opts merged ov) "isV3") = false ->
  let sent := with_standard_fields env merged d in
  let flat := flatten sent in
  exists lines,
    request JSON_stringify_req env this data opts_arg false st =
      ({| objs := <[data := sent]> (objs st)
                  ++ [obj_remove (obj_remove d "Action") "Version"];
          flats := <[options this := merged]> (flats st)
                   ++ [match tencentSignV1_outcome merged flat with
                       | Ok (signed, _) => signed
                       | Throw _ => flat
                       end];
          console := console st ++ lines |},
       match tencentSignV1_outcome merged flat with
       | Ok (_, r) => Ok (v1_descriptor merged r)
       | Throw e => Throw e
       end).
Proof.
  intros opts Ho Hov Hd merged HisV3 sent flat. unfold request. fold opts.
  rewrite bind_run, (assign_at_run _ _ _ _ _ Hov Ho). fold merged.
  rewrite bind_run, (read_params_run _ d) by done.
  rewrite bind_run. cbn [alloc_params with_flat objs flats console].
  rewrite bind_run.
  rewrite (read_flat_run _ (opts_after_merge this opts merged ov))
    by by eapply lookup_after_merge.
  rewrite HisV3. cbn [orb].
  set (rest := obj_remove (obj_remove d "Action") "Version").
  set (st1 := {| objs := objs st ++ [rest];
                 flats := <[options this := merged]> (flats st);
                 console := console st |}).
  assert (flats st1 !! options this = Some merged) as Ho1.
  { apply list_lookup_insert_eq. by eapply lookup_lt_Some. }
  assert (objs st1 !! data = Some d) as Hd1 by by apply lookup_app_l_Some.
  rewrite bind_run, bind_run, (tencentSignV1_total env _ _ _ _ _ Ho1 Hd1).
  fold sent flat. clear Ho1 Hd1. subst st1. cbn [objs flats console].
  rewrite insert_app_l by by eapply lookup_lt_Some.
  destruct (tencentSignV1_outcome merged flat) as [[signed r]|e].
  2: { exists []. by rewrite app_nil_r. }
  set (st2 := {| objs := <[data := sent]> (objs st) ++ [rest];
                 flats := <[options this := merged]> (flats st) ++ [signed];
                 console := console st |}).
  assert (flats st2 !! options this = Some merged) as Ho2.
  { apply lookup_app_l_Some, list_lookup_insert_eq. by eapply lookup_lt_Some. }
  assert (forall q : reqOption,
    exists lines,
      (read_flat (options this)
       ≫= λ o0 : sobj,
         (if truthy (get o0 "debug")
          then logger "Request Option"
                 (JSON_stringify_req
                    (if truthy (get o0 "timeout")
                     then set_timeout q (get o0 "timeout") else q))
          else mret ())
         ≫= λ _ : (),
           mret (if truthy (get o0 "timeout")
                 then set_timeout q (get o0 "timeout") else q)) st2
      = ({| objs := objs st2; flats := flats st2;
            console := console st ++ lines |},
         Ok (if truthy (get merged "timeout")
             then set_timeout q (get merged "timeout") else q))) as Hfinish.
  { intros q. rewrite bind_run, (read_flat_run _ _ _ Ho2), bind_run.
    destruct (truthy (get merged "debug")).
    - eexists [_]. reflexivity.
    - exists []. by rewrite app_nil_r. }
  unfold v1_descriptor.
  destruct (String.eqb (r1_method r) "POST").
  - rewrite ret_run. apply Hfinish.
  - rewrite bind_run. cbn [stringify_at]. rewrite ret_run, ret_run. apply Hfinish.
Qed.

(** Every run of [request] that takes the TC3 path: the stored options
    are the merged ones, the caller's objects are as before, and the
    rest of the data and its flattened map are the two new objects. *)
Lemma request_v3_store (JSON_stringify_req : reqOption -> string)
    (env : Env) (this : CapiObject) (data : ploc) (opts_arg : option floc)
    (isV3 : bool) (st : store) (o ov : sobj) (d : params) :
  let opts := default (defaultOptions this) opts_arg in
  flats st !! options this = Some o ->
  flats st !! opts = Some ov ->
  objs st !! data = Some d ->
  let merged := assign o ov in
  isV3 || truthy (get (opts_after_merge this opts merged ov) "isV3") = true ->
  let rest := obj_remove (obj_remove d "Action") "Version" in
  exists lines out,
    request JSON_stringify_req env this data opts_arg isV3 st =
      ({| objs := objs st ++ [rest];
          flats := <[options this := merged]> (flats st) ++ [flatten rest];
          console := console st ++ lines |}, out).
Proof.
  intros opts Ho Hov Hd merged HisV3 rest. unfold request. fold opts.
  rewrite bind_run, (assign_at_run _ _ _ _ _ Hov Ho). fold merged.
  rewrite bind_run, (read_params_run _ d) by done.
  rewrite bind_run. cbn [alloc_params with_flat objs flats console].
  rewrite bind_run.
  rewrite (read_flat_run _ (opts_after_merge this opts merged ov))
    by by eapply lookup_after_merge.
  rewrite HisV3. fold rest.
  set (st1 := {| objs := objs st ++ [rest];
                 flats := <[options this := merged]> (flats st);
                 console := console st |}).
  assert (flats st1 !! options this = Some merged) as Ho1.
  { apply list_lookup_insert_eq. by eapply lookup_lt_Some. }
  assert (objs st1 !! length (objs st) = Some rest) as Hd1 by apply lookup_fresh.
  destruct (tencentSign_total env _ _ _ _ _ Ho1 Hd1) as [lines Hrun].
  rewrite bind_run, bind_run, Hrun. clear Hrun.
  destruct (tencentSign_outcome env merged rest (length (flats st1))) as [r|e].
  2: { by exists lines, (Throw e). }
  set (st2 := {| objs := objs st1; flats := flats st1 ++ [flatten rest];
                 console := console st1 ++ lines |}).
  assert (flats st2 !! options this = Some merged) as Ho2
    by by apply lookup_app_l_Some.
  assert (flats st2 !! opts = Some (opts_after_merge this opts merged ov)) as Hov2.
  { apply lookup_app_l_Some. by eapply lookup_after_merge. }
  rewrite bind_run, (read_flat_run _ _ _ Ho2).
  rewrite bind_run, (read_flat_run _ _ _ Ho2).
  rewrite bind_run, (read_flat_run _ _ _ Hov2).
  rewrite ret_run.
  rewrite bind_run, (read_flat_run _ _ _ Ho2), bind_run.
  destruct (truthy (get merged "debug")).
  - eexists (lines ++ [_]), _. cbn [logger]. rewrite ret_run.
    unfold st2, st1. cbn [objs flats console]. rewrite <- app_assoc. reflexivity.
  - eexists lines, _. reflexivity.
Qed.
End Runs.

(** ** Host resolution *)

Lemma getHost_cases (o : sobj) :
  getHost (hostParams_of o) false =
    (if truthy (get o "host") then get o "host"
     else SStr (to_str (get o "ServiceType") +:+ "." +:+ to_str (get o "Region")
                +:+ "." +:+ to_str (get o "baseHost")))
  /\ getHost (hostParams_of o) true =
    (if truthy (get o "host") then get o "host"
     else SStr (to_str (get o "ServiceType") +:+ "." +:+ to_str (get o "baseHost"))).
Proof.
  unfold getHost, hostParams_of. cbn [hp_host hp_ServiceType hp_Region hp_baseHost].
  destruct (truthy (get o "host")); cbn [negb]; [done|].
  split; reflexivity.
Qed.

Lemma tencentSign_outcome_Ok `{Platform} (env : Env) (o : sobj) (p : params)
    (n : nat) (r : TencentSignResult) :
  tencentSign_outcome env o p n = Ok r ->
  r_Host r = getHost (hostParams_of o) false
  /\ r_url r = getUrl (hostParams_of o) false.
Proof.
  unfold tencentSign_outcome. intros Hout.
  destruct (js_or (get o "method") (SStr "POST")); try discriminate Hout.
  destruct (get o "ServiceType"); try discriminate Hout.
  by injection Hout as <-.
Qed.

Lemma tencentSignV1_outcome_Ok `{Platform} (o flat signed : sobj)
    (r : TencentSignResultV1) :
  tencentSignV1_outcome o flat = Ok (signed, r) ->
  r1_url r = getUrl (hostParams_of o) true
  /\ is_Some (obj_lookup signed "Signature")
  /\ r1_signPath r = qs_stringify signed.
Proof.
  unfold tencentSignV1_outcome. intros Hout.
  destruct (js_or (get o "method") (SStr "POST")); try discriminate Hout.
  destruct (get o "SecretKey"); try discriminate Hout.
  destruct (sign_digest (get o "SignatureMethod")); try discriminate Hout.
  injection Hout as <- <-. cbn [r1_url r1_signPath]. split_and!; try done.
  rewrite obj_lookup_set_eq. by eexists.
Qed.

(** C6. Without a host override the TC3 signer resolves the host
    ServiceType.Region.baseHost and the legacy signer the host
    ServiceType.baseHost, without a region segment; a host override that
    is supplied is used as it is by both.  The host so resolved is the
    Host that [tencentSign] returns and the host in the URL that either
    signer returns. *)
Theorem host_resolution `{Platform} (env : Env) (payload : ploc) (options : floc)
    (st : store) (o : sobj) (p : params) :
  flats st !! options = Some o ->
  objs st !! payload = Some p ->
  let host_v3 :=
    if truthy (get o "host") then get o "host"
    else SStr (to_str (get o "ServiceType") +:+ "." +:+ to_str (get o "Region")
               +:+ "." +:+ to_str (get o "baseHost")) in
  let host_v1 :=
    if truthy (get o "host") then get o "host"
    else SStr (to_str (get o "ServiceType") +:+ "." +:+ to_str (get o "baseHost")) in
  let url_with (host : scalar) :=
    to_str (js_or (get o "protocol") (SStr "https")) +:+ "://" +:+ to_str host
    +:+ to_str (js_or (get o "path") (SStr "/")) in
  getHost (hostParams_of o) false = host_v3
  /\ getHost (hostParams_of o) true = host_v1
  /\ (forall r, snd (tencentSign env payload options st) = Ok r ->
      r_Host r = host_v3 /\ r_url r = url_with host_v3)
  /\ (forall r, snd (tencentSignV1 env payload options st) = Ok r ->
      r1_url r = url_with host_v1).
Proof.
  intros Ho Hp host_v3 host_v1 url_with.
  destruct (getHost_cases o) as [Hv3 Hv1]. fold host_v3 in Hv3. fold host_v1 in Hv1.
  split_and!; [done | done | |].
  - intros r Hr.
    destruct (tencentSign_total env payload options st o p Ho Hp) as [lines Hrun].
    rewrite Hrun in Hr. apply tencentSign_outcome_Ok in Hr as [-> ->].
    split; [done|]. unfold getUrl. by rewrite Hv3.
  - intros r Hr.
    rewrite (tencentSignV1_total env payload options st o p Ho Hp) in Hr.
    cbn [snd] in Hr.
    destruct (tencentSignV1_outcome o _) as [[signed r']|e] eqn:Hout;
      [|discriminate Hr].
    injection Hr as ->. apply tencentSignV1_outcome_Ok in Hout as (-> & _ & _).
    unfold getUrl. by rewrite Hv1.
Qed.

Lemma host_resolution_witness :
  getHost (hostParams_of sample_options) false
    = SStr "cvm.ap-guangzhou.api.qcloud.com"
  /\ getHost (hostParams_of sample_options) true = SStr "cvm.api.qcloud.com"
  /\ (forall r,
      snd (tencentSign (H := sample_platform) sample_env 0%nat 0%nat sample_store)
        = Ok r ->
      r_Host r = SStr "cvm.ap-guangzhou.api.qcloud.com"
      /\ r_url r = "https://cvm.ap-guangzhou.api.qcloud.com/")
  /\ (forall r,
      snd (tencentSignV1 (H := sample_platform) sample_env 0%nat 0%nat sample_store)
        = Ok r ->
      r1_url r = "https://cvm.api.qcloud.com/").
Proof.
  apply (host_resolution (H := sample_platform) sample_env 0%nat 0%nat
           sample_store sample_options sample_data); reflexivity.
Defined.

(** ** The TC3-HMAC-SHA256 signer *)

(** C1. A call of [tencentSign] on stored options and parameters, with
    a method that is a string (or absent, which means POST) and a
    ServiceType that is a string, returns an Authorization equal to the
    reference derivation: canonical request, string to sign, chained
    signing key, hexadecimal signature and credential line. *)
Theorem tencentSign_authorization `{Platform} (env : Env) (payload : ploc)
    (options : floc) (st : store) (o : sobj) (p : params) (m svc : string) :
  flats st !! options = Some o ->
  objs st !! payload = Some p ->
  js_or (get o "method") (SStr "POST") = SStr m ->
  get o "ServiceType" = SStr svc ->
  exists st' r,
    tencentSign env payload options st = (st', Ok r)
    /\ r_Authorization r =
         ref_authorization (to_str (get o "SecretId")) (to_str (get o "SecretKey"))
           svc m (to_str (r_Host r)) (now_unix env) (slice_0_10 (now_iso env))
           (flatten p).
Proof.
  intros Ho Hp Hm Hsvc.
  destruct (tencentSign_total env payload options st o p Ho Hp) as [lines Hrun].
  unfold tencentSign_outcome in Hrun. rewrite Hm, Hsvc in Hrun.
  eexists _, _. split; [exact Hrun|]. reflexivity.
Qed.

Lemma tencentSign_authorization_witness :
  exists st' r,
    tencentSign (H := sample_platform) sample_env 0%nat 0%nat sample_store
      = (st', Ok r)
    /\ r_Authorization r =
         ref_authorization (H := sample_platform) "id" "key" "cvm" "POST"
           (to_str (r_Host r)) 1609459200 "2021-01-01" (flatten sample_data).
Proof.
  apply (tencentSign_authorization (H := sample_platform) sample_env 0%nat 0%nat
           sample_store sample_options sample_data "POST" "cvm");
    reflexivity.
Defined.

Lemma get_set_ne (o : sobj) (k k' : string) (v : scalar) :
  k ≠ k' -> get (obj_set o k v) k' = get o k'.
Proof. intros Hne. unfold get. by rewrite obj_lookup_set_ne. Qed.

Lemma get_set_eq (o : sobj) (k : string) (v : scalar) : get (obj_set o k v) k = v.
Proof. unfold get. by rewrite obj_lookup_set_eq. Qed.

Lemma hostParams_agree (o1 o2 : sobj) :
  (forall k, k ≠ "debug" -> get o1 k = get o2 k) ->
  hostParams_of o1 = hostParams_of o2.
Proof. intros Hagree. unfold hostParams_of. f_equal; by apply Hagree. Qed.

(** The outcome of [tencentSign] does not read the debug flag. *)
Lemma tencentSign_outcome_agree `{Platform} (env : Env) (o1 o2 : sobj) (p : params)
    (n1 n2 : floc) :
  (forall k, k ≠ "debug" -> get o1 k = get o2 k) ->
  outcome_map result_values (tencentSign_outcome env o1 p n1)
  = outcome_map result_values (tencentSign_outcome env o2 p n2).
Proof.
  intros Hagree. unfold tencentSign_outcome.
  rewrite (hostParams_agree _ _ Hagree).
  rewrite (Hagree "method"), (Hagree "ServiceType"), (Hagree "SecretId"),
    (Hagree "SecretKey") by done.
  destruct (js_or (get o2 "method") (SStr "POST")); try reflexivity.
  destruct (get o2 "ServiceType"); reflexivity.
Qed.

(** C9. Two calls of [tencentSign] with the same time, the same
    parameters and options that agree on everything but the debug flag
    return the same Authorization, URL, Host and Timestamp (or throw the
    same error), and the flattened payloads they return hold the same
    map: the debug flag adds console lines only. *)
Theorem tencentSign_deterministic `{Platform} (env : Env) (pl1 pl2 : ploc)
    (l1 l2 : floc) (st1 st2 : store) (o1 o2 : sobj) (p : params) :
  flats st1 !! l1 = Some o1 ->
  objs st1 !! pl1 = Some p ->
  flats st2 !! l2 = Some o2 ->
  objs st2 !! pl2 = Some p ->
  (forall k, k ≠ "debug" -> get o1 k = get o2 k) ->
  let run1 := tencentSign env pl1 l1 st1 in
  let run2 := tencentSign env pl2 l2 st2 in
  outcome_map result_values (snd run1) = outcome_map result_values (snd run2)
  /\ (forall r1 r2, snd run1 = Ok r1 -> snd run2 = Ok r2 ->
      flats (fst run1) !! r_payload r1 = Some (flatten p)
      /\ flats (fst run2) !! r_payload r2 = Some (flatten p)).
Proof.
  intros Ho1 Hp1 Ho2 Hp2 Hagree run1 run2. subst run1 run2.
  destruct (tencentSign_total env pl1 l1 st1 o1 p Ho1 Hp1) as [lines1 ->].
  destruct (tencentSign_total env pl2 l2 st2 o2 p Ho2 Hp2) as [lines2 ->].
  cbn [fst snd flats]. split; [by apply tencentSign_outcome_agree|].
  unfold tencentSign_outcome. intros r1 r2 Hr1 Hr2.
  destruct (js_or (get o1 "method") (SStr "POST")); try discriminate Hr1.
  destruct (js_or (get o2 "method") (SStr "POST")); try discriminate Hr2.
  destruct (get o1 "ServiceType"); try discriminate Hr1.
  destruct (get o2 "ServiceType"); try discriminate Hr2.
  injection Hr1 as <-. injection Hr2 as <-. cbn [r_payload].
  split; apply lookup_fresh.
Qed.

Lemma tencentSign_deterministic_witness :
  let run1 := tencentSign (H := sample_platform) sample_env 0%nat 0%nat sample_store in
  let run2 :=
    tencentSign (H := sample_platform) sample_env 0%nat 0%nat sample_store_debug in
  outcome_map result_values (snd run1) = outcome_map result_values (snd run2)
  /\ (forall r1 r2, snd run1 = Ok r1 -> snd run2 = Ok r2 ->
      flats (fst run1) !! r_payload r1 = Some (flatten sample_data)
      /\ flats (fst run2) !! r_payload r2 = Some (flatten sample_data)).
Proof.
  apply (tencentSign_deterministic (H := sample_platform) sample_env 0%nat 0%nat
           0%nat 0%nat sample_store sample_store_debug sample_options
           sample_options_debug sample_data); try reflexivity.
  intros k Hk. symmetry. by apply get_set_ne.
Defined.

(** ** The legacy signer *)

Lemma with_standard_fields_other (env : Env) (o : sobj) (p : params) (k : string) :
  k ∉ standard_fields ->
  obj_lookup (with_standard_fields env o p) k = obj_lookup p k.
Proof.
  intros Hk. unfold standard_fields in Hk.
  repeat (apply not_elem_of_cons in Hk as [? Hk]).
  unfold with_standard_fields. case_decide;
    by rewrite ?obj_lookup_set_ne by done.
Qed.

Lemma with_standard_fields_SignatureMethod (env : Env) (o : sobj) (p : params) :
  get o "SignatureMethod" ≠ SStr "sha256" ->
  obj_lookup (with_standard_fields env o p) "SignatureMethod"
  = obj_lookup p "SignatureMethod".
Proof.
  intros Hsm. unfold with_standard_fields. rewrite decide_False by done.
  by rewrite !obj_lookup_set_ne by done.
Qed.

(** C3, as the code has it. With no SignatureMethod
    among the options, [tencentSignV1] succeeds and the Signature it
    stores is the base64 form of an HMAC-SHA256 digest, keyed by
    SecretKey, of METHOD + HOST + PATH + "?" + query string: the default
    of [sign] applies, not sha1; and the signer announces no
    SignatureMethod among the parameters. *)
Theorem tencentSignV1_default_digest `{Platform} (env : Env) (payload : ploc)
    (options : floc) (st : store) (o : sobj) (p : params) (m key : string) :
  flats st !! options = Some o ->
  objs st !! payload = Some p ->
  js_or (get o "method") (SStr "POST") = SStr m ->
  get o "SecretKey" = SStr key ->
  get o "SignatureMethod" = SUndef ->
  let sent := with_standard_fields env o p in
  let flat := flatten sent in
  let method := toUpperCase m in
  exists st' r,
    tencentSignV1 env payload options st = (st', Ok r)
    /\ flats st' !! length (flats st) =
         Some (obj_set flat "Signature"
                 (SStr (base64 (hmac_sha256 (utf8 key)
                    (utf8 (method +:+ to_str (getHost (hostParams_of o) true)
                           +:+ to_str (get o "path") +:+ "?"
                           +:+ build_qstr method flat))))))
    /\ obj_lookup sent "SignatureMethod" = obj_lookup p "SignatureMethod".
Proof.
  intros Ho Hp Hm Hkey Hsm sent flat method.
  rewrite (tencentSignV1_total env payload options st o p Ho Hp).
  fold sent flat. unfold tencentSignV1_outcome. rewrite Hm, Hkey, Hsm.
  cbn [sign_digest]. eexists _, _. split; [reflexivity|]. split.
  - cbn [flats]. apply lookup_fresh.
  - apply with_standard_fields_SignatureMethod. by rewrite Hsm.
Qed.

Lemma tencentSignV1_default_digest_witness :
  let sent := with_standard_fields sample_env sample_options sample_data in
  let flat := flatten sent in
  exists st' r,
    tencentSignV1 (H := sample_platform) sample_env 0%nat 0%nat sample_store
      = (st', Ok r)
    /\ flats st' !! 1%nat =
         Some (obj_set flat "Signature"
                 (SStr (@base64 sample_platform (@hmac_sha256 sample_platform (utf8 "key")
                    (utf8 ("POST" +:+ "cvm.api.qcloud.com" +:+ "undefined" +:+ "?"
                           +:+ build_qstr "POST" flat))))))
    /\ obj_lookup sent "SignatureMethod" = None.
Proof.
  apply (tencentSignV1_default_digest (H := sample_platform) sample_env 0%nat
           0%nat sample_store sample_options sample_data "POST" "key");
    reflexivity.
Defined.

(** ** The request assembler on the legacy path *)

(** C4, as the code has it. On the legacy path the
    descriptor [request] hands to the HTTP client carries neither the
    flattened parameters nor the Signature: it has no form, no body and
    no headers, and its URL is the bare endpoint, followed by an empty
    query when the method is not POST.  The signer returns [signPath]
    while [request] reads [payload], which is therefore undefined. *)
Theorem request_v1_sends_no_parameters `{Platform}
    (JSON_stringify_req : reqOption -> string) (env : Env) (this : CapiObject)
    (data : ploc) (opts_arg : option floc) (st : store) (o ov : sobj)
    (d : params) (q : reqOption) :
  let opts := default (defaultOptions this) opts_arg in
  flats st !! options this = Some o ->
  flats st !! opts = Some ov ->
  objs st !! data = Some d ->
  let merged := assign o ov in
  truthy (get (opts_after_merge this opts merged ov) "isV3") = false ->
  snd (request JSON_stringify_req env this data opts_arg false st) = Ok q ->
  q_form q = None /\ q_body q = None /\ q_headers q = None
  /\ q_url q = getUrl (hostParams_of merged) true
               +:+ (if String.eqb (q_method q) "POST" then "" else "?").
Proof.
  intros opts Ho Hov Hd merged HisV3 Hq.
  destruct (request_v1_total JSON_stringify_req env this data opts_arg st o ov d
              Ho Hov Hd HisV3) as [lines Hrun].
  fold opts merged in Hrun. rewrite Hrun in Hq. cbn [snd] in Hq.
  destruct (tencentSignV1_outcome merged _) as [[signed r]|e] eqn:Hout;
    [|discriminate Hq].
  apply tencentSignV1_outcome_Ok in Hout as (Hurl & _ & _).
  injection Hq as <-. unfold v1_descriptor.
  destruct (String.eqb (r1_method r) "POST") eqn:Hpost;
    destruct (truthy (get merged "timeout"));
    cbn [set_form set_url set_timeout q_form q_body q_headers q_url q_method];
    rewrite ?Hpost, Hurl, ?append_nil_r; done.
Qed.

Lemma request_v1_sends_no_parameters_witness :
  exists q,
    snd (request (H := sample_platform) sample_printer sample_env sample_capi
           0%nat None false sample_store) = Ok q
    /\ q_form q = None /\ q_body q = None /\ q_headers q = None
    /\ q_url q = "https://cvm.api.qcloud.com/".
Proof.
  eexists. split; [vm_compute; reflexivity|].
  apply (request_v1_sends_no_parameters (H := sample_platform) sample_printer
           sample_env sample_capi 0%nat None sample_store sample_options
           sample_options sample_data); reflexivity.
Defined.

(** ** Effects on the caller's objects and on the stored options *)

(** C5 as stated does not hold: the legacy signer changes the caller's
    parameter object, and a per-call option is still in the instance's
    options after the call. *)
Lemma signing_mutates_its_inputs :
  objs (fst (tencentSignV1 (H := sample_platform) sample_env 0%nat 0%nat
               sample_store))
    ≠ objs sample_store
  /\ flats (fst (request (H := sample_platform) sample_printer sample_env
                   sample_capi 0%nat (Some 1%nat) true sample_store_override))
       !! 0%nat
     ≠ flats sample_store_override !! 0%nat.
Proof. split; vm_compute; discriminate. Qed.

(** C5, amended. [tencentSign] leaves every parameter object as it was
    and only adds the flattened map to the store.  [tencentSignV1]
    writes the standard fields (Region, Nonce, Timestamp, SecretId,
    RequestClient, and SignatureMethod for sha256) into the caller's
    object, changes no other property of it and no other object, and
    adds the flattened map.  [request] merges the options of the call
    into the options of the instance, where they stay. *)
Theorem signing_effects `{Platform} (JSON_stringify_req : reqOption -> string)
    (env : Env) (payload : ploc) (conf : floc) (this : CapiObject)
    (data : ploc) (opts_arg : option floc) (isV3 : bool) (st : store)
    (o oi ov : sobj) (p d : params) :
  let opts := default (defaultOptions this) opts_arg in
  flats st !! conf = Some o ->
  objs st !! payload = Some p ->
  flats st !! options this = Some oi ->
  flats st !! opts = Some ov ->
  objs st !! data = Some d ->
  let v3 := fst (tencentSign env payload conf st) in
  let v1 := fst (tencentSignV1 env payload conf st) in
  let rq := fst (request JSON_stringify_req env this data opts_arg isV3 st) in
  (objs v3 = objs st /\ flats st `prefix_of` flats v3)
  /\ (objs v1 = <[payload := with_standard_fields env o p]> (objs st)
      /\ (forall k, k ∉ standard_fields ->
          obj_lookup (with_standard_fields env o p) k = obj_lookup p k)
      /\ flats st `prefix_of` flats v1)
  /\ flats rq !! options this = Some (assign oi ov).
Proof.
  intros opts Ho Hp Hoi Hov Hd v3 v1 rq. subst v3 v1 rq. split_and!.
  - destruct (tencentSign_total env payload conf st o p Ho Hp) as [lines ->].
    done.
  - destruct (tencentSign_total env payload conf st o p Ho Hp) as [lines ->].
    by apply prefix_app_r.
  - by rewrite (tencentSignV1_total env payload conf st o p Ho Hp).
  - intros k. apply with_standard_fields_other.
  - rewrite (tencentSignV1_total env payload conf st o p Ho Hp).
    by apply prefix_app_r.
  - assert (<[options this := assign oi ov]> (flats st) !! options this
            = Some (assign oi ov)) as Hmerged.
    { apply list_lookup_insert_eq. by eapply lookup_lt_Some. }
    destruct (isV3 || truthy (get (opts_after_merge this opts (assign oi ov) ov)
                                "isV3")) eqn:Hpath.
    + destruct (request_v3_store JSON_stringify_req env this data opts_arg isV3
                  st oi ov d Hoi Hov Hd Hpath) as (lines & out & ->).
      by apply lookup_app_l_Some.
    + apply orb_false_iff in Hpath as [-> Hpath].
      destruct (request_v1_total JSON_stringify_req env this data opts_arg
                  st oi ov d Hoi Hov Hd Hpath) as (lines & ->).
      by apply lookup_app_l_Some.
Qed.

Lemma signing_effects_witness :
  let v3 := fst (tencentSign (H := sample_platform) sample_env 0%nat 0%nat
                   sample_store_override) in
  let v1 := fst (tencentSignV1 (H := sample_platform) sample_env 0%nat 0%nat
                   sample_store_override) in
  let rq := fst (request (H := sample_platform) sample_printer sample_env
                   sample_capi 0%nat (Some 1%nat) false sample_store_override) in
  (objs v3 = objs sample_store_override
   /\ flats sample_store_override `prefix_of` flats v3)
  /\ (objs v1 = <[0%nat := with_standard_fields sample_env sample_options
                             sample_data]> (objs sample_store_override)
      /\ (forall k, k ∉ standard_fields ->
          obj_lookup (with_standard_fields sample_env sample_options sample_data) k
          = obj_lookup sample_data k)
      /\ flats sample_store_override `prefix_of` flats v1)
  /\ flats rq !! 0%nat
     = Some (assign sample_options [("Region", SStr "ap-shanghai")]).
Proof.
  apply (signing_effects (H := sample_platform) sample_printer sample_env 0%nat
           0%nat sample_capi 0%nat (Some 1%nat) false sample_store_override
           sample_options sample_options [("Region", SStr "ap-shanghai")]
           sample_data sample_data); reflexivity.
Defined.

(** ** Missing credentials *)

Lemma obj_lookup_rev_None {V : Type} (l : list (string * V)) (k : string) :
  obj_lookup l k = None -> obj_lookup (rev l) k = None.
Proof.
  rewrite !obj_lookup_None. unfold obj_keys. rewrite map_rev.
  intros Hk Hin. apply Hk. apply list_elem_of_In, in_rev. by apply list_elem_of_In.
Qed.

Lemma get_assign_absent (t s : sobj) (k : string) :
  obj_lookup s k = None -> get (assign t s) k = get t k.
Proof.
  intros Hk. unfold get, assign. rewrite fold_set_lookup.
  by rewrite (obj_lookup_rev_None _ _ Hk).
Qed.

(** C8 as stated does not hold: without SecretId and SecretKey among
    the options, a direct TC3 call and both kinds of request of an
    instance return normally. *)
Lemma missing_credentials_are_not_rejected :
  obj_lookup sample_options_nocreds "SecretId" = None
  /\ obj_lookup sample_options_nocreds "SecretKey" = None
  /\ succeeded (snd (tencentSign (H := sample_platform) sample_env 0%nat 0%nat
                       sample_store_nocreds)) = true
  /\ succeeded (snd ((Capi_new 0%nat ≫= fun c =>
                        request (H := sample_platform) sample_printer sample_env
                          c 0%nat None true) sample_store_nocreds)) = true
  /\ succeeded (snd ((Capi_new 0%nat ≫= fun c =>
                        request (H := sample_platform) sample_printer sample_env
                          c 0%nat None false) sample_store_nocreds)) = true.
Proof. vm_compute. repeat split. Qed.

(** C8, amended. Credentials are not checked.  An instance built from
    options without SecretId and SecretKey holds the empty string for
    both, and a TC3 call on its options returns an Authorization with an
    empty SecretId in the credential, signed with the key derived from
    "TC3" alone. *)
Theorem missing_credentials_are_signed `{Platform} (env : Env) (payload : ploc)
    (copts : floc) (st : store) (ov : sobj) (p : params) (m svc : string) :
  flats st !! copts = Some ov ->
  objs st !! payload = Some p ->
  obj_lookup ov "SecretId" = None ->
  obj_lookup ov "SecretKey" = None ->
  let merged := assign defaultOptions_init ov in
  js_or (get merged "method") (SStr "POST") = SStr m ->
  get merged "ServiceType" = SStr svc ->
  exists st1 c st2 r,
    Capi_new copts st = (st1, Ok c)
    /\ flats st1 !! options c = Some merged
    /\ get merged "SecretId" = SStr ""
    /\ get merged "SecretKey" = SStr ""
    /\ tencentSign env payload (options c) st1 = (st2, Ok r)
    /\ r_Authorization r =
         ref_authorization "" "" svc m (to_str (r_Host r)) (now_unix env)
           (slice_0_10 (now_iso env)) (flatten p).
Proof.
  intros Hov Hp Hid Hkey merged Hm Hsvc.
  assert (get merged "SecretId" = SStr "") as Hid'
    by (unfold merged; by rewrite get_assign_absent).
  assert (get merged "SecretKey" = SStr "") as Hkey'
    by (unfold merged; by rewrite get_assign_absent).
  eexists _, _. rewrite (Capi_new_total copts ov st Hov).
  set (st1 := {| objs := objs st; flats := flats st ++ [merged];
                 console := console st |}).
  assert (flats st1 !! length (flats st) = Some merged) as Ho1
    by apply lookup_fresh.
  destruct (tencentSign_total env payload (length (flats st)) st1 merged p
              Ho1 Hp) as [lines Hrun].
  unfold tencentSign_outcome in Hrun. rewrite Hm, Hsvc, Hid', Hkey' in Hrun.
  eexists _, _. split_and!; [reflexivity | exact Ho1 | done | done | exact Hrun |].
  reflexivity.
Qed.

Lemma missing_credentials_are_signed_witness :
  let merged := assign defaultOptions_init sample_options_nocreds in
  exists st1 c st2 r,
    Capi_new 0%nat sample_store_nocreds = (st1, Ok c)
    /\ flats st1 !! options c = Some merged
    /\ get merged "SecretId" = SStr ""
    /\ get merged "SecretKey" = SStr ""
    /\ tencentSign (H := sample_platform) sample_env 0%nat (options c) st1
         = (st2, Ok r)
    /\ r_Authorization r =
         ref_authorization (H := sample_platform) "" "" "cvm" "POST"
           (to_str (r_Host r)) 1609459200 "2021-01-01" (flatten sample_data).
Proof.
  apply (missing_credentials_are_signed (H := sample_platform) sample_env 0%nat
           0%nat sample_store_nocreds sample_options_nocreds sample_data
           "POST" "cvm"); reflexivity.
Defined.

(** ** Keys with an underscore in the legacy scheme *)

Lemma indexOf_lower (c : ascii) (s : string) : -1 <= indexOf c s.
Proof.
  induction s as [|a s IH]; simpl; [lia|].
  destruct (Ascii.eqb a c); [lia|].
  destruct (indexOf c s <? 0) eqn:E; [lia|]. apply Z.ltb_ge in E. lia.
Qed.

Lemma indexOf_pos_nonempty (c : ascii) (s : string) : 0 < indexOf c s -> s ≠ "".
Proof. by intros Hpos ->. Qed.

(** A key in which the needle occurs is changed by the replacement. *)
Lemma replace_all_changes (a b : ascii) (s : string) :
  a ≠ b -> 0 <= indexOf a s -> replace_all a b s ≠ s.
Proof.
  intros Hab. induction s as [|c s IH]; simpl; [lia|].
  destruct (Ascii.eqb_spec c a) as [->|Hne].
  - intros _ [= Heq _]. by apply Hab.
  - destruct (indexOf a s <? 0) eqn:E; [lia|]. apply Z.ltb_ge in E.
    intros _ [= Heq]. by apply IH.
Qed.

Lemma canonical_key_rewritten (k : string) :
  0 < indexOf "_" k ->
  canonical_key k = replace_all "_" "." k /\ canonical_key k ≠ k.
Proof.
  intros Hpos. unfold canonical_key, key_is_rewritten.
  replace (indexOf "_" k =? 0) with false by (symmetry; apply Z.eqb_neq; lia).
  split; [done|]. apply replace_all_changes; [done | lia].
Qed.

Lemma canonical_pairs_elem (method : string) (payload : sobj) (k pair : string) :
  k ∈ obj_keys payload ->
  k ≠ "" ->
  canonical_pair method payload k = Some pair ->
  pair ∈ canonical_pairs method payload.
Proof.
  intros Hk Hne Hpair. unfold canonical_pairs.
  apply list_elem_of_omap. exists k. split; [|done].
  apply list_elem_of_filter. split; [done|].
  by rewrite <- sort_keys_Permutation.
Qed.

Lemma obj_lookup_Some_key {V : Type} (o : list (string * V)) (k : string) (v : V) :
  obj_lookup o k = Some v -> k ∈ obj_keys o.
Proof.
  intros Hk. destruct (decide (k ∈ obj_keys o)) as [|Hnot]; [done|].
  apply obj_lookup_None in Hnot. congruence.
Qed.

(** C10 as stated does not hold.  Where the flattened map also has the
    dotted key, the rewritten key finds that value, so the pair of the
    underscore key is signed with a value that is not empty; and a key
    that begins with an underscore is not rewritten, whatever
    underscores follow. *)
Lemma rewritten_key_finds_a_value :
  let flat :=
    flatten (with_standard_fields sample_env sample_options sample_data_collision) in
  obj_lookup flat "a_b" = Some (SStr "x")
  /\ indexOf "_" "a_b" = 1
  /\ qstr_step "POST" flat "" "a_b" = "&a.b=y"
  /\ build_qstr "POST" flat
     = "Nonce=12345&Region=ap-guangzhou&RequestClient=SDK_NODEJS_v0.0.1"
       +:+ "&SecretId=id&Timestamp=1609459200&a.b=y&a.b=y"
  /\ qstr_step "POST" [("_a_b", SStr "x")] "" "_a_b" = "&_a_b=x".
Proof. vm_compute. repeat split. Qed.

(** C10, amended. In a call of [tencentSignV1] that succeeds, take a
    key of the flattened map whose first underscore is not at position 0
    and whose rewritten form is not itself a key of that map.  The key
    is rewritten before the lookup, so the signed query string has the
    pair of the rewritten key with an empty value, while [signPath]
    carries the original key with its value: what is signed and what is
    sent differ for this parameter. *)
Theorem underscore_key_is_signed_empty `{Platform} (env : Env) (payload : ploc)
    (options : floc) (st : store) (o : sobj) (p : params) (m key : string)
    (h : Buffer -> Buffer -> Buffer) (k : string) (v : scalar) :
  flats st !! options = Some o ->
  objs st !! payload = Some p ->
  js_or (get o "method") (SStr "POST") = SStr m ->
  get o "SecretKey" = SStr key ->
  sign_digest (get o "SignatureMethod") = Some h ->
  let flat := flatten (with_standard_fields env o p) in
  let method := toUpperCase m in
  obj_lookup flat k = Some v ->
  0 < indexOf "_" k ->
  obj_lookup flat (canonical_key k) = None ->
  exists st' r signed,
    tencentSignV1 env payload options st = (st', Ok r)
    /\ flats st' !! length (flats st) = Some signed
    /\ get signed "Signature" =
         SStr (base64 (h (utf8 key)
           (utf8 (method +:+ to_str (getHost (hostParams_of o) true)
                  +:+ to_str (get o "path") +:+ "?"
                  +:+ join "&" (canonical_pairs method flat)))))
    /\ canonical_key k ≠ k
    /\ canonical_key k +:+ "=" ∈ canonical_pairs method flat
    /\ r1_signPath r = join "&" (map qs_field signed)
    /\ qs_field (k, v) ∈ map qs_field signed.
Proof.
  intros Ho Hp Hm Hkey Hh flat method Hk Hpos Hmiss.
  rewrite (tencentSignV1_total env payload options st o p Ho Hp).
  fold flat. unfold tencentSignV1_outcome. rewrite Hm, Hkey, Hh.
  fold method. eexists _, _, _. split; [reflexivity|].
  split; [cbn [flats]; apply lookup_fresh|].
  destruct (canonical_key_rewritten k Hpos) as [_ Hchanged].
  split_and!.
  - rewrite get_set_eq. unfold v1_signature, v1_string_to_sign.
    by rewrite build_qstr_canonical.
  - done.
  - apply (canonical_pairs_elem _ _ k).
    + by eapply obj_lookup_Some_key.
    + by apply (indexOf_pos_nonempty "_").
    + unfold canonical_pair, get. rewrite Hmiss. cbn [default begins_with_at].
      rewrite andb_false_r. reflexivity.
  - reflexivity.
  - apply list_elem_of_fmap. exists (k, v). split; [done|].
    apply list_elem_of_In, obj_lookup_Some_In.
    rewrite obj_lookup_set_ne; [done|].
    intros <-. vm_compute in Hpos. discriminate Hpos.
Qed.

Lemma underscore_key_is_signed_empty_witness :
  let flat := flatten (with_standard_fields sample_env sample_options sample_data) in
  exists st' r signed,
    tencentSignV1 (H := sample_platform) sample_env 0%nat 0%nat sample_store
      = (st', Ok r)
    /\ flats st' !! 1%nat = Some signed
    /\ get signed "Signature" =
         SStr (@base64 sample_platform (@hmac_sha256 sample_platform (utf8 "key")
           (utf8 ("POST" +:+ "cvm.api.qcloud.com" +:+ "undefined" +:+ "?"
                  +:+ join "&" (canonical_pairs "POST" flat)))))
    /\ canonical_key "a_b" ≠ "a_b"
    /\ "a.b=" ∈ canonical_pairs "POST" flat
    /\ r1_signPath r = join "&" (map qs_field signed)
    /\ "a_b=x" ∈ map qs_field signed.
Proof.
  apply (underscore_key_is_signed_empty (H := sample_platform) sample_env 0%nat
           0%nat sample_store sample_options sample_data "POST" "key"
           (@hmac_sha256 sample_platform) "a_b" (SStr "x")); reflexivity.
Defined.

(** ** Hexadecimal digests *)

Lemma hex_lower_digit (n : N) :
  (n < 16)%N ->
  hex_lower n ∈ String.list_ascii_of_string "0123456789abcdef".
Proof.
  intros Hn. unfold hex_lower. apply list_elem_of_In, nth_In.
  change (length (String.list_ascii_of_string "0123456789abcdef")) with 16%nat.
  lia.
Qed.

Lemma N_of_ascii_bound (c : ascii) : (N_of_ascii c < 256)%N.
Proof. destruct c as [[] [] [] [] [] [] [] []]; reflexivity. Qed.

(** The hexadecimal form of a digest has two lower-case digits for each
    byte. *)
Lemma hex_is_lowercase (b : list ascii) :
  String.length (hex b) = (2 * length b)%nat
  /\ Forall (fun c => c ∈ String.list_ascii_of_string "0123456789abcdef")
       (String.list_ascii_of_string (hex b)).
Proof.
  induction b as [|c b [IHlen IHall]]; [by split|].
  pose proof (N_of_ascii_bound c) as Hc. split.
  - cbn [hex String.length length]. rewrite IHlen. lia.
  - cbn [hex String.list_ascii_of_string].
    apply Forall_cons. split.
    { apply hex_lower_digit, N.Div0.div_lt_upper_bound. lia. }
    apply Forall_cons. split; [|done].
    apply hex_lower_digit, N.mod_lt. lia.
Qed.

(** ** Keys the rewriting leaves as they are *)

Lemma replace_all_absent (a b : ascii) (s : string) :
  indexOf a s = -1 -> replace_all a b s = s.
Proof.
  induction s as [|c s IH]; simpl; [done|].
  destruct (Ascii.eqb c a); [lia|].
  pose proof (indexOf_lower a s) as Hlow.
  destruct (indexOf a s <? 0) eqn:E.
  - intros _. apply Z.ltb_lt in E. rewrite IH by lia. done.
  - apply Z.ltb_ge in E. lia.
Qed.

(** A key without an underscore, or with its first underscore in front,
    reaches the lookup unchanged. *)
Lemma canonical_key_unchanged (k : string) :
  indexOf "_" k <= 0 -> canonical_key k = k.
Proof.
  intros Hle. unfold canonical_key, key_is_rewritten.
  destruct (indexOf "_" k =? 0) eqn:E; [done|]. apply Z.eqb_neq in E.
  cbn [negb]. apply replace_all_absent.
  pose proof (indexOf_lower "_" k). lia.
Qed.

(** * Further properties of the code *)

(** ** Runs with their console lines *)

Lemma tencentSign_run_lines `{Platform} (env : Env) (payload : ploc)
    (options : floc) (st : store) (o : sobj) (p : params) :
  flats st !! options = Some o ->
  objs st !! payload = Some p ->
  tencentSign env payload options st =
    ({| objs := objs st; flats := flats st ++ [flatten p];
        console := console st ++ tencentSign_lines env o p |},
     tencentSign_outcome env o p (length (flats st))).
Proof.
  intros Ho Hp. unfold tencentSign_outcome, tencentSign_lines, tencentSign.
  rewrite bind_run, (read_flat_run _ _ _ Ho).
  rewrite bind_run, (read_params_run _ _ _ Hp).
  rewrite bind_run. cbn [alloc_flat].
  destruct (js_or (get o "method") (SStr "POST")) as [| |b|z| |m] eqn:Hm;
    try (rewrite app_nil_r; reflexivity).
  rewrite bind_run. cbn [toUpperCase_of]. rewrite ret_run.
  rewrite bind_run, (read_flat_run _ (flatten p)) by apply lookup_fresh.
  rewrite bind_run, sign_default_run.
  destruct (get o "ServiceType") as [| |b|z| |svc] eqn:Hsvc;
    try (rewrite app_nil_r; reflexivity).
  rewrite bind_run, sign_default_run, bind_run, sign_default_run.
  assert (forall st0 : store, (mret tt : M unit) st0 = (st0, Ok tt)) as Hret
    by reflexivity.
  destruct (truthy (get o "debug")).
  - rewrite bind_run, bind_run. cbn [logger].
    rewrite bind_run. cbn [logger]. rewrite bind_run. cbn [logger].
    cbn [objs flats console]. rewrite <- !app_assoc.
    cbn [app]. rewrite ret_run.
    rewrite authorization_normal.
    unfold ref_authorization, ref_signature, ref_signing_key,
      ref_string_to_sign, ref_canonical_request, sha256_hex, join.
    cbn [String.concat to_str]. rewrite !append_assoc. reflexivity.
  - rewrite bind_run, Hret, ret_run, app_nil_r.
    rewrite authorization_normal.
    unfold ref_authorization, ref_signature, ref_signing_key,
      ref_string_to_sign, ref_canonical_request, sha256_hex, join.
    cbn [String.concat to_str]. rewrite !append_assoc. reflexivity.
Qed.

(** Every run of [request] on the TC3 path, with its descriptor and
    console lines. *)
Lemma request_v3_run `{Platform} (JSON_stringify_req : reqOption -> string)
    (env : Env) (this : CapiObject) (data : ploc) (opts_arg : option floc)
    (isV3 : bool) (st : store) (o ov : sobj) (d : params) :
  let opts := default (defaultOptions this) opts_arg in
  flats st !! options this = Some o ->
  flats st !! opts = Some ov ->
  objs st !! data = Some d ->
  let merged := assign o ov in
  let optsv := opts_after_merge this opts merged ov in
  isV3 || truthy (get optsv "isV3") = true ->
  let rest := obj_remove (obj_remove d "Action") "Version" in
  let out :=
    outcome_map (v3_descriptor merged optsv d)
      (tencentSign_outcome env merged rest (length (flats st))) in
  request JSON_stringify_req env this data opts_arg isV3 st =
    ({| objs := objs st ++ [rest];
        flats := <[options this := merged]> (flats st) ++ [flatten rest];
        console := console st ++ tencentSign_lines env merged rest
                   ++ request_line JSON_stringify_req merged out |}, out).
Proof.
  intros opts Ho Hov Hd merged optsv HisV3 rest out. unfold request. fold opts.
  rewrite bind_run, (assign_at_run _ _ _ _ _ Hov Ho). fold merged.
  rewrite bind_run, (read_params_run _ d) by done.
  rewrite bind_run. cbn [alloc_params with_flat objs flats console].
  rewrite bind_run.
  rewrite (read_flat_run _ optsv) by by eapply lookup_after_merge.
  rewrite HisV3. fold rest.
  set (st1 := {| objs := objs st ++ [rest];
                 flats := <[options this := merged]> (flats st);
                 console := console st |}).
  assert (flats st1 !! options this = Some merged) as Ho1.
  { apply list_lookup_insert_eq. by eapply lookup_lt_Some. }
  assert (objs st1 !! length (objs st) = Some rest) as Hd1 by apply lookup_fresh.
  rewrite bind_run, bind_run, (tencentSign_run_lines env _ _ _ _ _ Ho1 Hd1).
  assert (length (flats st1) = length (flats st)) as -> by apply length_insert.
  subst out.
  destruct (tencentSign_outcome env merged rest (length (flats st))) as [r|e].
  2: { cbn [outcome_map request_line]. by rewrite app_nil_r. }
  set (st2 := {| objs := objs st1; flats := flats st1 ++ [flatten rest];
                 console := console st1 ++ tencentSign_lines env merged rest |}).
  assert (flats st2 !! options this = Some merged) as Ho2
    by by apply lookup_app_l_Some.
  assert (flats st2 !! opts = Some optsv) as Hov2.
  { apply lookup_app_l_Some. by eapply lookup_after_merge. }
  rewrite bind_run, (read_flat_run _ _ _ Ho2).
  rewrite bind_run, (read_flat_run _ _ _ Ho2).
  rewrite bind_run, (read_flat_run _ _ _ Hov2).
  rewrite ret_run.
  rewrite bind_run, (read_flat_run _ _ _ Ho2), bind_run.
  cbn [outcome_map request_line].
  match goal with
  | |- context [if truthy (get merged "timeout") then set_timeout ?q0 _ else _] =>
      assert ((if truthy (get merged "timeout")
               then set_timeout q0 (get merged "timeout") else q0)
              = v3_descriptor merged optsv d r) as ->
  end.
  { unfold v3_descriptor, v3_headers.
    destruct (truthy (get merged "timeout")), (truthy (get merged "Token")),
      (truthy (get optsv "RequestClient")); reflexivity. }
  destruct (truthy (get merged "debug")).
  - cbn [logger]. rewrite ret_run. unfold st2, st1. cbn [objs flats console].
    by rewrite <- app_assoc.
  - rewrite ret_run. unfold st2, st1. cbn [objs flats console].
    by rewrite app_nil_r.
Qed.

(** Every run of [request] on the legacy path, with its console
    lines. *)
Lemma request_v1_run `{Platform} (JSON_stringify_req : reqOption -> string)
    (env : Env) (this : CapiObject) (data : ploc) (opts_arg : option floc)
    (st : store) (o ov : sobj) (d : params) :
  let opts := default (defaultOptions this) opts_arg in
  flats st !! options this = Some o ->
  flats st !! opts = Some ov ->
  objs st !! data = Some d ->
  let merged := assign o ov in
  truthy (get (opts_after_merge this opts merged ov) "isV3") = false ->
  let sent := with_standard_fields env merged d in
  let flat := flatten sent in
  let out :=
    match tencentSignV1_outcome merged flat with
    | Ok (_, r) => Ok (v1_descriptor merged r)
    | Throw e => Throw e
    end in
  request JSON_stringify_req env this data opts_arg false st =
    ({| objs := <[data := sent]> (objs st)
                ++ [obj_remove (obj_remove d "Action") "Version"];
        flats := <[options this := merged]> (flats st)
                 ++ [match tencentSignV1_outcome merged flat with
                     | Ok (signed, _) => signed
                     | Throw _ => flat
                     end];
        console := console st ++ request_line JSON_stringify_req merged out |},
     out).
Proof.
  intros opts Ho Hov Hd merged HisV3 sent flat out. unfold request. fold opts.
  rewrite bind_run, (assign_at_run _ _ _ _ _ Hov Ho). fold merged.
  rewrite bind_run, (read_params_run _ d) by done.
  rewrite bind_run. cbn [alloc_params with_flat objs flats console].
  rewrite bind_run.
  rewrite (read_flat_run _ (opts_after_merge this opts merged ov))
    by by eapply lookup_after_merge.
  rewrite HisV3. cbn [orb].
  set (rest := obj_remove (obj_remove d "Action") "Version").
  set (st1 := {| objs := objs st ++ [rest];
                 flats := <[options this := merged]> (flats st);
                 console := console st |}).
  assert (flats st1 !! options this = Some merged) as Ho1.
  { apply list_lookup_insert_eq. by eapply lookup_lt_Some. }
  assert (objs st1 !! data = Some d) as Hd1 by by apply lookup_app_l_Some.
  rewrite bind_run, bind_run, (tencentSignV1_total env _ _ _ _ _ Ho1 Hd1).
  fold sent flat. clear Ho1 Hd1. subst st1. cbn [objs flats console].
  rewrite insert_app_l by by eapply lookup_lt_Some.
  subst out.
  destruct (tencentSignV1_outcome merged flat) as [[signed r]|e].
  2: { cbn [request_line]. by rewrite app_nil_r. }
  set (st2 := {| objs := <[data := sent]> (objs st) ++ [rest];
                 flats := <[options this := merged]> (flats st) ++ [signed];
                 console := console st |}).
  assert (flats st2 !! options this = Some merged) as Ho2.
  { apply lookup_app_l_Some, list_lookup_insert_eq. by eapply lookup_lt_Some. }
  assert (forall q : reqOption,
      (read_flat (options this)
       ≫= λ o0 : sobj,
         (if truthy (get o0 "debug")
          then logger "Request Option"
                 (JSON_stringify_req
                    (if truthy (get o0 "timeout")
                     then set_timeout q (get o0 "timeout") else q))
          else mret ())
         ≫= λ _ : (),
           mret (if truthy (get o0 "timeout")
                 then set_timeout q (get o0 "timeout") else q)) st2
      = ({| objs := objs st2; flats := flats st2;
            console := console st
                       ++ request_line JSON_stringify_req merged
                            (Ok (if truthy (get merged "timeout")
                                 then set_timeout q (get merged "timeout")
                                 else q)) |},
         Ok (if truthy (get merged "timeout")
             then set_timeout q (get merged "timeout") else q))) as Hfinish.
  { intros q. rewrite bind_run, (read_flat_run _ _ _ Ho2), bind_run.
    cbn [request_line]. destruct (truthy (get merged "debug")).
    - reflexivity.
    - by rewrite app_nil_r. }
  unfold v1_descriptor.
  destruct (String.eqb (r1_method r) "POST").
  - rewrite ret_run. apply Hfinish.
  - rewrite bind_run. cbn [stringify_at]. rewrite ret_run, ret_run. apply Hfinish.
Qed.

(** ** Objects: more on lookup and update *)

Lemma obj_lookup_rev_NoDup {V : Type} (l : list (string * V)) (k : string) :
  NoDup (obj_keys l) -> obj_lookup (rev l) k = obj_lookup l k.
Proof.
  induction l as [|[k0 v0] l IH]; [done|].
  intros Hnd. apply NoDup_cons in Hnd as [Hk0 Hnd]. cbn [fst] in Hk0.
  cbn [rev]. rewrite obj_lookup_app, (IH Hnd). cbn [obj_lookup].
  destruct (String.eqb_spec k0 k) as [->|Hne].
  - apply obj_lookup_None in Hk0. by rewrite Hk0.
  - by destruct (obj_lookup l k).
Qed.

Lemma obj_lookup_In_NoDup {V : Type} (l : list (string * V)) (k : string) (v : V) :
  NoDup (obj_keys l) -> In (k, v) l -> obj_lookup l k = Some v.
Proof.
  induction l as [|[k0 v0] l IH]; [done|].
  intros Hnd Hin. apply NoDup_cons in Hnd as [Hk0 Hnd]. cbn [fst] in Hk0.
  cbn [obj_lookup].
  destruct Hin as [[= -> ->]|Hin]; [by rewrite String.eqb_refl|].
  destruct (String.eqb_spec k0 k) as [->|Hne]; [|by apply IH].
  exfalso. apply Hk0. apply list_elem_of_In, in_map_iff. by exists (k, v).
Qed.

(** Merging an object into itself changes nothing. *)
Lemma assign_self (o : sobj) : NoDup (obj_keys o) -> assign o o = o.
Proof.
  intros Hnd. unfold assign.
  assert (forall l : sobj, incl l o ->
    fold_left (fun t kv => obj_set t (fst kv) (snd kv)) l o = o) as Hfold.
  { induction l as [|[k v] l IH]; intros Hincl; [done|]. cbn [fold_left fst snd].
    rewrite obj_set_same.
    - apply IH. intros x Hx. apply Hincl. by right.
    - apply obj_lookup_In_NoDup; [done|]. apply Hincl. by left. }
  apply Hfold, incl_refl.
Qed.

Lemma obj_lookup_remove_eq {V : Type} (o : list (string * V)) (k : string) :
  obj_lookup (obj_remove o k) k = None.
Proof.
  apply obj_lookup_None. unfold obj_remove, obj_keys. intros Hin.
  apply list_elem_of_fmap in Hin as ([k' v'] & -> & Hin).
  apply list_elem_of_filter in Hin as [Hk _]. cbn [fst] in Hk.
  by rewrite String.eqb_refl in Hk.
Qed.

Lemma obj_lookup_remove_ne {V : Type} (o : list (string * V)) (k k' : string) :
  k ≠ k' -> obj_lookup (obj_remove o k) k' = obj_lookup o k'.
Proof.
  intros Hne. unfold obj_remove. induction o as [|[k0 v0] o IH]; [done|].
  destruct (String.eqb_spec k0 k) as [->|Hk0].
  - rewrite filter_cons_False by (cbn [fst]; by rewrite String.eqb_refl).
    cbn [obj_lookup]. apply String.eqb_neq in Hne. by rewrite Hne.
  - rewrite filter_cons_True by (cbn [fst]; by apply String.eqb_neq).
    cbn [obj_lookup]. by rewrite IH.
Qed.

(** ** The constructor *)

(** X1. [new Capi(options)] keeps one options object for both
    [defaultOptions] and [options]; it is a new object, no object of the
    caller is changed, and it holds for every name the caller's value
    where the caller gave one and the default otherwise. *)
Theorem Capi_new_merges (copts : floc) (ov : sobj) (st : store) :
  flats st !! copts = Some ov ->
  NoDup (obj_keys ov) ->
  exists st' c merged,
    Capi_new copts st = (st', Ok c)
    /\ defaultOptions c = options c
    /\ flats st !! options c = None
    /\ objs st' = objs st
    /\ flats st `prefix_of` flats st'
    /\ flats st' !! options c = Some merged
    /\ forall k, get merged k =
         match obj_lookup ov k with
         | Some v => v
         | None => get defaultOptions_init k
         end.
Proof.
  intros Hov Hnd. eexists _, _, _. rewrite (Capi_new_total copts ov st Hov).
  split; [reflexivity|]. cbn [defaultOptions options objs flats].
  split_and!; try done.
  - by apply lookup_ge_None.
  - by apply prefix_app_r.
  - apply lookup_fresh.
  - intros k. unfold get at 1, assign. rewrite fold_set_lookup.
    rewrite (obj_lookup_rev_NoDup _ _ Hnd). by destruct (obj_lookup ov k).
Qed.

Lemma Capi_new_merges_witness :
  exists st' c merged,
    Capi_new 0%nat sample_store = (st', Ok c)
    /\ defaultOptions c = options c
    /\ flats sample_store !! options c = None
    /\ objs st' = objs sample_store
    /\ flats sample_store `prefix_of` flats st'
    /\ flats st' !! options c = Some merged
    /\ forall k, get merged k =
         match obj_lookup sample_options k with
         | Some v => v
         | None => get defaultOptions_init k
         end.
Proof.
  apply (Capi_new_merges 0%nat sample_options sample_store); [reflexivity|].
  refine (bool_decide_unpack _ _). vm_compute. exact I.
Defined.

(** ** The request assembler: stored options and caller's data *)

(** X2. A call of [request] without options of its own merges the
    instance's options object into itself and so leaves the stored
    options as they were, whichever path is taken and however the call
    ends. *)
Theorem request_without_options_keeps_them `{Platform}
    (JSON_stringify_req : reqOption -> string) (env : Env) (this : CapiObject)
    (data : ploc) (isV3 : bool) (st : store) (o : sobj) (d : params) :
  defaultOptions this = options this ->
  flats st !! options this = Some o ->
  NoDup (obj_keys o) ->
  objs st !! data = Some d ->
  flats (fst (request JSON_stringify_req env this data None isV3 st))
    !! options this = Some o.
Proof.
  intros Halias Ho Hnd Hd.
  assert (flats st !! default (defaultOptions this) None = Some o) as Hov
    by (cbn [default]; by rewrite Halias).
  assert (<[options this := o]> (flats st) !! options this = Some o) as Hkept.
  { apply list_lookup_insert_eq. by eapply lookup_lt_Some. }
  destruct (isV3 || truthy (get (opts_after_merge this
              (default (defaultOptions this) None) (assign o o) o) "isV3"))
    eqn:Hpath.
  - rewrite (request_v3_run JSON_stringify_req env this data None isV3 st o o d
               Ho Hov Hd Hpath).
    cbn [fst flats]. rewrite (assign_self o Hnd). by apply lookup_app_l_Some.
  - apply orb_false_iff in Hpath as [-> Hpath].
    rewrite (request_v1_run JSON_stringify_req env this data None st o o d
               Ho Hov Hd Hpath).
    cbn [fst flats]. rewrite (assign_self o Hnd). by apply lookup_app_l_Some.
Qed.

Lemma request_without_options_keeps_them_witness :
  flats (fst (request (H := sample_platform) sample_printer sample_env sample_capi
                0%nat None false sample_store_full))
    !! 0%nat = Some sample_options_full.
Proof.
  apply (request_without_options_keeps_them (H := sample_platform) sample_printer
           sample_env sample_capi 0%nat false sample_store_full
           sample_options_full sample_data); try reflexivity.
  refine (bool_decide_unpack _ _). vm_compute. exact I.
Defined.

(** X3. On the TC3 path [request] leaves the caller's data object as it
    was; on the legacy path the data object itself receives the
    standard fields, with the Region and SecretId of the merged
    options. *)
Theorem request_effect_on_data `{Platform}
    (JSON_stringify_req : reqOption -> string) (env : Env) (this : CapiObject)
    (data : ploc) (opts_arg : option floc) (isV3 : bool) (st : store)
    (o ov : sobj) (d : params) :
  let opts := default (defaultOptions this) opts_arg in
  flats st !! options this = Some o ->
  flats st !! opts = Some ov ->
  objs st !! data = Some d ->
  let merged := assign o ov in
  let run := request JSON_stringify_req env this data opts_arg isV3 st in
  objs (fst run) !! data =
    Some (if isV3 || truthy (get (opts_after_merge this opts merged ov) "isV3")
          then d else with_standard_fields env merged d).
Proof.
  intros opts Ho Hov Hd merged run. subst run.
  destruct (isV3 || truthy (get (opts_after_merge this opts merged ov) "isV3"))
    eqn:Hpath.
  - rewrite (request_v3_run JSON_stringify_req env this data opts_arg isV3 st
               o ov d Ho Hov Hd Hpath).
    cbn [fst objs]. by apply lookup_app_l_Some.
  - apply orb_false_iff in Hpath as [-> Hpath].
    rewrite (request_v1_run JSON_stringify_req env this data opts_arg st
               o ov d Ho Hov Hd Hpath).
    cbn [fst objs]. apply lookup_app_l_Some, list_lookup_insert_eq.
    by eapply lookup_lt_Some.
Qed.

Lemma request_effect_on_data_witness :
  objs (fst (request (H := sample_platform) sample_printer sample_env sample_capi
               0%nat (Some 1%nat) false sample_store_override)) !! 0%nat
  = Some (with_standard_fields sample_env
            (assign sample_options [("Region", SStr "ap-shanghai")]) sample_data).
Proof.
  apply (request_effect_on_data (H := sample_platform) sample_printer sample_env
           sample_capi 0%nat (Some 1%nat) false sample_store_override
           sample_options [("Region", SStr "ap-shanghai")] sample_data);
    reflexivity.
Defined.

(** X4. Every descriptor [request] returns asks for JSON, has
    certificate checking switched off, and has a time limit exactly when
    the merged options have a truthy [timeout], which is then the
    limit. *)
Theorem request_descriptor_common `{Platform}
    (JSON_stringify_req : reqOption -> string) (env : Env) (this : CapiObject)
    (data : ploc) (opts_arg : option floc) (isV3 : bool) (st : store)
    (o ov : sobj) (d : params) (q : reqOption) :
  let opts := default (defaultOptions this) opts_arg in
  flats st !! options this = Some o ->
  flats st !! opts = Some ov ->
  objs st !! data = Some d ->
  let merged := assign o ov in
  snd (request JSON_stringify_req env this data opts_arg isV3 st) = Ok q ->
  q_json q = true
  /\ q_strictSSL q = false
  /\ q_timeout q =
       (if truthy (get merged "timeout") then Some (get merged "timeout") else None).
Proof.
  intros opts Ho Hov Hd merged Hq.
  destruct (isV3 || truthy (get (opts_after_merge this opts merged ov) "isV3"))
    eqn:Hpath.
  - rewrite (request_v3_run JSON_stringify_req env this data opts_arg isV3 st
               o ov d Ho Hov Hd Hpath) in Hq. cbn [snd] in Hq.
    destruct (tencentSign_outcome env _ _ _) as [r|e]; [|discriminate Hq].
    injection Hq as <-. done.
  - apply orb_false_iff in Hpath as [-> Hpath].
    rewrite (request_v1_run JSON_stringify_req env this data opts_arg st
               o ov d Ho Hov Hd Hpath) in Hq. cbn [snd] in Hq.
    destruct (tencentSignV1_outcome _ _) as [[signed r]|e]; [|discriminate Hq].
    injection Hq as <-. unfold v1_descriptor. fold merged.
    destruct (String.eqb (r1_method r) "POST"),
      (truthy (get merged "timeout")); done.
Qed.

Lemma request_descriptor_common_witness :
  exists q,
    snd (request (H := sample_platform) sample_printer sample_env sample_capi
           0%nat None true sample_store_full) = Ok q
    /\ q_json q = true /\ q_strictSSL q = false
    /\ q_timeout q = Some (SInt 3000).
Proof.
  eexists. split; [vm_compute; reflexivity|].
  apply (request_descriptor_common (H := sample_platform) sample_printer
           sample_env sample_capi 0%nat None true sample_store_full
           sample_options_full sample_options_full sample_data); reflexivity.
Defined.

(** ** The request assembler on the TC3 path *)

(** X5. On the TC3 path the descriptor is a POST, whatever method the
    options name, to the URL of the TC3 host, without a form; its body is
    the flattened map of the caller's data without Action and Version,
    every other property of the data being kept. *)
Theorem request_v3_transport `{Platform}
    (JSON_stringify_req : reqOption -> string) (env : Env) (this : CapiObject)
    (data : ploc) (opts_arg : option floc) (isV3 : bool) (st : store)
    (o ov : sobj) (d : params) (q : reqOption) :
  let opts := default (defaultOptions this) opts_arg in
  flats st !! options this = Some o ->
  flats st !! opts = Some ov ->
  objs st !! data = Some d ->
  let merged := assign o ov in
  isV3 || truthy (get (opts_after_merge this opts merged ov) "isV3") = true ->
  let run := request JSON_stringify_req env this data opts_arg isV3 st in
  snd run = Ok q ->
  q_method q = "POST"
  /\ q_form q = None
  /\ q_url q = getUrl (hostParams_of merged) false
  /\ exists l rest,
       q_body q = Some l
       /\ flats (fst run) !! l = Some (flatten rest)
       /\ obj_lookup rest "Action" = None
       /\ obj_lookup rest "Version" = None
       /\ forall k, k ≠ "Action" -> k ≠ "Version" ->
          obj_lookup rest k = obj_lookup d k.
Proof.
  intros opts Ho Hov Hd merged Hpath run Hq. subst run.
  rewrite (request_v3_run JSON_stringify_req env this data opts_arg isV3 st
             o ov d Ho Hov Hd Hpath) in Hq |- *.
  cbn [fst snd flats] in Hq |- *. fold merged in Hq |- *.
  destruct (tencentSign_outcome env merged _ _) as [r|e] eqn:Hout;
    [|discriminate Hq].
  injection Hq as <-. cbn [outcome_map v3_descriptor q_method q_form q_url q_body].
  pose proof Hout as Hr. apply tencentSign_outcome_Ok in Hr as [_ Hurl].
  split_and!; [done | done | done |].
  exists (r_payload r), (obj_remove (obj_remove d "Action") "Version").
  split_and!.
  - done.
  - unfold tencentSign_outcome in Hout.
    destruct (js_or (get merged "method") (SStr "POST")); try discriminate Hout.
    destruct (get merged "ServiceType"); try discriminate Hout.
    injection Hout as <-. cbn [r_payload].
    rewrite <- (length_insert (flats st) (options this) merged).
    apply lookup_fresh.
  - rewrite obj_lookup_remove_ne by done. apply obj_lookup_remove_eq.
  - apply obj_lookup_remove_eq.
  - intros k Hk1 Hk2. by rewrite !obj_lookup_remove_ne by done.
Qed.

Lemma request_v3_transport_witness :
  let run := request (H := sample_platform) sample_printer sample_env sample_capi
               0%nat None true sample_store_full in
  exists q,
    snd run = Ok q
    /\ q_method q = "POST"
    /\ q_form q = None
    /\ q_url q = "https://cvm.ap-guangzhou.api.qcloud.com/"
    /\ exists l rest,
         q_body q = Some l
         /\ flats (fst run) !! l = Some (flatten rest)
         /\ obj_lookup rest "Action" = None
         /\ obj_lookup rest "Version" = None
         /\ forall k, k ≠ "Action" -> k ≠ "Version" ->
            obj_lookup rest k = obj_lookup sample_data k.
Proof.
  eexists. split; [vm_compute; reflexivity|].
  apply (request_v3_transport (H := sample_platform) sample_printer sample_env
           sample_capi 0%nat None true sample_store_full sample_options_full
           sample_options_full sample_data); reflexivity.
Defined.

Lemma tencentSign_outcome_fields `{Platform} (env : Env) (o : sobj) (p : params)
    (n : nat) (r : TencentSignResult) :
  tencentSign_outcome env o p n = Ok r ->
  exists m svc,
    js_or (get o "method") (SStr "POST") = SStr m
    /\ get o "ServiceType" = SStr svc
    /\ r_Host r = getHost (hostParams_of o) false
    /\ r_Timestamp r = now_unix env
    /\ r_payload r = n
    /\ r_Authorization r =
         ref_authorization (to_str (get o "SecretId")) (to_str (get o "SecretKey"))
           svc m (to_str (getHost (hostParams_of o) false)) (now_unix env)
           (slice_0_10 (now_iso env)) (flatten p).
Proof.
  unfold tencentSign_outcome. intros Hout.
  destruct (js_or (get o "method") (SStr "POST")) as [| | | | |m];
    try discriminate Hout.
  destruct (get o "ServiceType") as [| | | | |svc]; try discriminate Hout.
  injection Hout as <-. by exists m, svc.
Qed.

Lemma v3_headers_fixed (merged optsv : sobj) (d : params) (r : TencentSignResult)
    (k : string) :
  k ≠ "X-TC-Token" -> k ≠ "X-TC-RequestClient" ->
  obj_lookup (v3_headers merged optsv d r) k =
  obj_lookup
    [("Content-Type", Leaf (SStr "application/json"));
     ("Authorization", Leaf (SStr (r_Authorization r)));
     ("Host", Leaf (r_Host r));
     ("X-TC-Action", get_param d "Action");
     ("X-TC-Version",
      if truthy_value (get_param d "Version") then get_param d "Version"
      else Leaf (SStr "2018-03-21"));
     ("X-TC-Timestamp", Leaf (SInt (r_Timestamp r)));
     ("X-TC-Region", Leaf (get merged "Region"))] k.
Proof.
  intros Hk1 Hk2. unfold v3_headers.
  destruct (truthy (get optsv "RequestClient")), (truthy (get merged "Token"));
    by rewrite ?obj_lookup_set_ne by done.
Qed.

(** X6. The headers of a TC3 request: the content type, the
    Authorization and Host of the signer, the Action of the data, its
    Version or 2018-03-21 when the data has none, the time stamp of the
    signature and the Region of the merged options.  The Authorization
    is signed over the method the options name, POST when they name
    none. *)
Theorem request_v3_headers `{Platform}
    (JSON_stringify_req : reqOption -> string) (env : Env) (this : CapiObject)
    (data : ploc) (opts_arg : option floc) (isV3 : bool) (st : store)
    (o ov : sobj) (d : params) (q : reqOption) :
  let opts := default (defaultOptions this) opts_arg in
  flats st !! options this = Some o ->
  flats st !! opts = Some ov ->
  objs st !! data = Some d ->
  let merged := assign o ov in
  isV3 || truthy (get (opts_after_merge this opts merged ov) "isV3") = true ->
  snd (request JSON_stringify_req env this data opts_arg isV3 st) = Ok q ->
  exists hs m svc,
    q_headers q = Some hs
    /\ js_or (get merged "method") (SStr "POST") = SStr m
    /\ get merged "ServiceType" = SStr svc
    /\ obj_lookup hs "Content-Type" = Some (Leaf (SStr "application/json"))
    /\ obj_lookup hs "Authorization" =
         Some (Leaf (SStr
           (ref_authorization (to_str (get merged "SecretId"))
              (to_str (get merged "SecretKey")) svc m
              (to_str (getHost (hostParams_of merged) false)) (now_unix env)
              (slice_0_10 (now_iso env))
              (flatten (obj_remove (obj_remove d "Action") "Version")))))
    /\ obj_lookup hs "Host" = Some (Leaf (getHost (hostParams_of merged) false))
    /\ obj_lookup hs "X-TC-Action" = Some (get_param d "Action")
    /\ obj_lookup hs "X-TC-Version" =
         Some (if truthy_value (get_param d "Version") then get_param d "Version"
               else Leaf (SStr "2018-03-21"))
    /\ obj_lookup hs "X-TC-Timestamp" = Some (Leaf (SInt (now_unix env)))
    /\ obj_lookup hs "X-TC-Region" = Some (Leaf (get merged "Region")).
Proof.
  intros opts Ho Hov Hd merged Hpath Hq.
  rewrite (request_v3_run JSON_stringify_req env this data opts_arg isV3 st
             o ov d Ho Hov Hd Hpath) in Hq.
  cbn [snd] in Hq. fold merged in Hq.
  destruct (tencentSign_outcome env merged _ _) as [r|e] eqn:Hout;
    [|discriminate Hq].
  injection Hq as <-.
  apply tencentSign_outcome_fields in Hout
    as (m & svc & Hm & Hsvc & HHost & Hts & _ & Hauth).
  eexists _, m, svc. cbn [outcome_map v3_descriptor q_headers].
  split; [reflexivity|]. split; [done|]. split; [done|].
  rewrite !v3_headers_fixed by done. rewrite Hauth, HHost, Hts.
  by split_and!.
Qed.

Lemma request_v3_headers_witness :
  let merged := assign sample_options_full sample_options_full in
  exists q,
    snd (request (H := sample_platform) sample_printer sample_env sample_capi
           0%nat None true sample_store_full) = Ok q
    /\ exists hs m svc,
      q_headers q = Some hs
      /\ js_or (get merged "method") (SStr "POST") = SStr m
      /\ get merged "ServiceType" = SStr svc
      /\ obj_lookup hs "Content-Type" = Some (Leaf (SStr "application/json"))
      /\ obj_lookup hs "Authorization" =
           Some (Leaf (SStr
             (ref_authorization (H := sample_platform)
                (to_str (get merged "SecretId"))
                (to_str (get merged "SecretKey")) svc m
                (to_str (getHost (hostParams_of merged) false))
                (now_unix sample_env) (slice_0_10 (now_iso sample_env))
                (flatten (obj_remove (obj_remove sample_data "Action") "Version")))))
      /\ obj_lookup hs "Host" = Some (Leaf (getHost (hostParams_of merged) false))
      /\ obj_lookup hs "X-TC-Action" = Some (get_param sample_data "Action")
      /\ obj_lookup hs "X-TC-Version" =
           Some (if truthy_value (get_param sample_data "Version")
                 then get_param sample_data "Version"
                 else Leaf (SStr "2018-03-21"))
      /\ obj_lookup hs "X-TC-Timestamp" = Some (Leaf (SInt (now_unix sample_env)))
      /\ obj_lookup hs "X-TC-Region" = Some (Leaf (get merged "Region")).
Proof.
  eexists. split; [vm_compute; reflexivity|].
  apply (request_v3_headers (H := sample_platform) sample_printer sample_env
           sample_capi 0%nat None true sample_store_full sample_options_full
           sample_options_full sample_data); reflexivity.
Defined.

(** X7. A TC3 request has the header X-TC-Token exactly when the merged
    options of the instance have a truthy Token, and the header
    X-TC-RequestClient exactly when the options object of the call has a
    truthy RequestClient: a RequestClient given to the constructor alone
    is not sent when the call brings options of its own. *)
Theorem request_v3_optional_headers `{Platform}
    (JSON_stringify_req : reqOption -> string) (env : Env) (this : CapiObject)
    (data : ploc) (opts_arg : option floc) (isV3 : bool) (st : store)
    (o ov : sobj) (d : params) (q : reqOption) :
  let opts := default (defaultOptions this) opts_arg in
  flats st !! options this = Some o ->
  flats st !! opts = Some ov ->
  objs st !! data = Some d ->
  let merged := assign o ov in
  let optsv := opts_after_merge this opts merged ov in
  isV3 || truthy (get optsv "isV3") = true ->
  snd (request JSON_stringify_req env this data opts_arg isV3 st) = Ok q ->
  exists hs,
    q_headers q = Some hs
    /\ obj_lookup hs "X-TC-Token" =
         (if truthy (get merged "Token") then Some (Leaf (get merged "Token"))
          else None)
    /\ obj_lookup hs "X-TC-RequestClient" =
         (if truthy (get optsv "RequestClient")
          then Some (Leaf (get optsv "RequestClient")) else None).
Proof.
  intros opts Ho Hov Hd merged optsv Hpath Hq.
  rewrite (request_v3_run JSON_stringify_req env this data opts_arg isV3 st
             o ov d Ho Hov Hd Hpath) in Hq.
  cbn [snd] in Hq. fold merged optsv in Hq.
  destruct (tencentSign_outcome env merged _ _) as [r|e]; [|discriminate Hq].
  injection Hq as <-. eexists. cbn [outcome_map v3_descriptor q_headers].
  split; [reflexivity|]. unfold v3_headers. subst optsv opts.
  destruct (truthy (get (opts_after_merge _ _ _ _) "RequestClient")),
    (truthy (get merged "Token"));
    rewrite ?obj_lookup_set_eq, ?obj_lookup_set_ne by done;
    rewrite ?obj_lookup_set_eq; by split.
Qed.

Lemma request_v3_optional_headers_witness :
  exists q,
    snd (request (H := sample_platform) sample_printer sample_env sample_capi
           0%nat (Some 1%nat) true
           {| objs := [sample_data];
              flats := [sample_options_full; [("Region", SStr "ap-shanghai")]];
              console := [] |}) = Ok q
    /\ exists hs,
      q_headers q = Some hs
      /\ obj_lookup hs "X-TC-Token" = Some (Leaf (SStr "tok"))
      /\ obj_lookup hs "X-TC-RequestClient" = None.
Proof.
  eexists. split; [vm_compute; reflexivity|].
  apply (request_v3_optional_headers (H := sample_platform) sample_printer
           sample_env sample_capi 0%nat (Some 1%nat) true
           {| objs := [sample_data];
              flats := [sample_options_full; [("Region", SStr "ap-shanghai")]];
              console := [] |}
           sample_options_full [("Region", SStr "ap-shanghai")] sample_data);
    reflexivity.
Defined.

(** ** What is written to the console *)

(** X8. [tencentSign] writes to the console only when it succeeds with
    the debug flag set; it then writes four lines, in the order
    CanonicalRequest, StringToSign, Signature, Authorization, each
    derived from the one before, the last being the Authorization it
    returns. *)
Theorem tencentSign_console `{Platform} (env : Env) (payload : ploc)
    (options : floc) (st : store) (o : sobj) (p : params) :
  flats st !! options = Some o ->
  objs st !! payload = Some p ->
  let run := tencentSign env payload options st in
  (truthy (get o "debug") && succeeded (snd run) = false ->
   console (fst run) = console st)
  /\ (truthy (get o "debug") = true -> forall r, snd run = Ok r ->
      exists m svc canonicalRequest stringToSign signature,
        js_or (get o "method") (SStr "POST") = SStr m
        /\ get o "ServiceType" = SStr svc
        /\ canonicalRequest =
             ref_canonical_request m (to_str (r_Host r)) (flatten p)
        /\ stringToSign =
             ref_string_to_sign (now_unix env) (slice_0_10 (now_iso env)) svc
               canonicalRequest
        /\ signature =
             ref_signature
               (ref_signing_key (to_str (get o "SecretKey"))
                  (slice_0_10 (now_iso env)) svc) stringToSign
        /\ console (fst run) =
             console st ++ [("CanonicalRequest", canonicalRequest);
                            ("StringToSign", stringToSign);
                            ("Signature", signature);
                            ("Authorization", r_Authorization r)]).
Proof.
  intros Ho Hp run. subst run.
  rewrite (tencentSign_run_lines env payload options st o p Ho Hp).
  cbn [fst snd console]. unfold tencentSign_lines, tencentSign_outcome. split.
  - destruct (js_or (get o "method") (SStr "POST")); try by rewrite app_nil_r.
    destruct (get o "ServiceType"); try by rewrite app_nil_r.
    cbn [succeeded]. rewrite andb_true_r. intros ->. by rewrite app_nil_r.
  - intros Hdebug r Hr.
    destruct (js_or (get o "method") (SStr "POST")) as [| | | | |m];
      try discriminate Hr.
    destruct (get o "ServiceType") as [| | | | |svc]; try discriminate Hr.
    injection Hr as <-. rewrite Hdebug. cbn [r_Host r_Authorization].
    eexists m, svc, _, _, _. by split_and!.
Qed.

Lemma tencentSign_console_witness :
  let run := tencentSign (H := sample_platform) sample_env 0%nat 0%nat
               sample_store_debug in
  (truthy (get sample_options_debug "debug") && succeeded (snd run) = false ->
   console (fst run) = console sample_store_debug)
  /\ (truthy (get sample_options_debug "debug") = true ->
      forall r, snd run = Ok r ->
      exists m svc canonicalRequest stringToSign signature,
        js_or (get sample_options_debug "method") (SStr "POST") = SStr m
        /\ get sample_options_debug "ServiceType" = SStr svc
        /\ canonicalRequest =
             ref_canonical_request (H := sample_platform) m (to_str (r_Host r))
               (flatten sample_data)
        /\ stringToSign =
             ref_string_to_sign (H := sample_platform) (now_unix sample_env)
               (slice_0_10 (now_iso sample_env)) svc canonicalRequest
        /\ signature =
             ref_signature (H := sample_platform)
               (ref_signing_key (H := sample_platform)
                  (to_str (get sample_options_debug "SecretKey"))
                  (slice_0_10 (now_iso sample_env)) svc) stringToSign
        /\ console (fst run) =
             console sample_store_debug
             ++ [("CanonicalRequest", canonicalRequest);
                 ("StringToSign", stringToSign);
                 ("Signature", signature);
                 ("Authorization", r_Authorization r)]).
Proof.
  apply (tencentSign_console (H := sample_platform) sample_env 0%nat 0%nat
           sample_store_debug sample_options_debug sample_data); reflexivity.
Defined.

(** X9. With a truthy [debug] among the merged options a successful
    [request] writes one line "Request Option" last, which holds the
    descriptor it returns; on the legacy path this is the only line,
    the legacy signer writing none.  Without [debug], or when the call
    throws, [request] adds no line of its own. *)
Theorem request_console `{Platform}
    (JSON_stringify_req : reqOption -> string) (env : Env) (this : CapiObject)
    (data : ploc) (opts_arg : option floc) (isV3 : bool) (st : store)
    (o ov : sobj) (d : params) :
  let opts := default (defaultOptions this) opts_arg in
  flats st !! options this = Some o ->
  flats st !! opts = Some ov ->
  objs st !! data = Some d ->
  let merged := assign o ov in
  let v3 := isV3 || truthy (get (opts_after_merge this opts merged ov) "isV3") in
  let run := request JSON_stringify_req env this data opts_arg isV3 st in
  let signer_lines :=
    if v3 then tencentSign_lines env merged
                 (obj_remove (obj_remove d "Action") "Version")
    else [] in
  console (fst run) =
    console st ++ signer_lines
    ++ match snd run with
       | Ok q =>
           if truthy (get merged "debug")
           then [("Request Option", JSON_stringify_req q)] else []
       | Throw _ => []
       end.
Proof.
  intros opts Ho Hov Hd merged v3 run signer_lines.
  subst run signer_lines v3.
  destruct (isV3 || truthy (get (opts_after_merge this opts merged ov) "isV3"))
    eqn:Hpath.
  - rewrite (request_v3_run JSON_stringify_req env this data opts_arg isV3 st
               o ov d Ho Hov Hd Hpath).
    reflexivity.
  - apply orb_false_iff in Hpath as [-> Hpath].
    rewrite (request_v1_run JSON_stringify_req env this data opts_arg st
               o ov d Ho Hov Hd Hpath).
    reflexivity.
Qed.

Lemma request_console_witness :
  let run := request (H := sample_platform) sample_printer sample_env sample_capi
               0%nat None false sample_store_full in
  console (fst run) =
    console sample_store_full ++ []
    ++ match snd run with
       | Ok q =>
           if truthy (get (assign sample_options_full sample_options_full) "debug")
           then [("Request Option", sample_printer q)] else []
       | Throw _ => []
       end.
Proof.
  apply (request_console (H := sample_platform) sample_printer sample_env
           sample_capi 0%nat None false sample_store_full sample_options_full
           sample_options_full sample_data); reflexivity.
Defined.

(** ** What the signers need in order to return *)

(** X10. [tencentSign] returns only when the method of the options is
    a string or falsy and the ServiceType is a string: with a truthy
    method that is not a string, or a ServiceType that is not a string,
    no call returns a signature, whatever the parameters and the
    credentials are. *)
Theorem tencentSign_returns_only_if `{Platform} (env : Env) (payload : ploc)
    (options : floc) (st : store) (o : sobj) (p : params) :
  flats st !! options = Some o ->
  objs st !! payload = Some p ->
  succeeded (snd (tencentSign env payload options st)) = true ->
  (exists m, js_or (get o "method") (SStr "POST") = SStr m)
  /\ (exists svc, get o "ServiceType" = SStr svc).
Proof.
  intros Ho Hp.
  rewrite (tencentSign_run_lines env payload options st o p Ho Hp).
  cbn [snd]. unfold tencentSign_outcome.
  destruct (js_or (get o "method") (SStr "POST")) as [| | | | |m];
    try discriminate.
  destruct (get o "ServiceType") as [| | | | |svc]; try discriminate.
  intros _. split; by eexists.
Qed.

Lemma tencentSign_returns_only_if_witness :
  succeeded (snd (tencentSign (H := sample_platform) sample_env 0%nat 0%nat
                    sample_store)) = true
  /\ (exists m, js_or (get sample_options "method") (SStr "POST") = SStr m)
  /\ (exists svc, get sample_options "ServiceType" = SStr svc).
Proof.
  split; [reflexivity|].
  apply (tencentSign_returns_only_if (H := sample_platform) sample_env 0%nat
           0%nat sample_store sample_options sample_data); reflexivity.
Defined.

(** X11. [tencentSignV1] returns only when the method of the options
    is a string or falsy, the SecretKey is a string, and the
    SignatureMethod is undefined or the name of a digest the crypto
    library has: in particular no call without a SecretKey returns a
    signature. *)
Theorem tencentSignV1_returns_only_if `{Platform} (env : Env) (payload : ploc)
    (options : floc) (st : store) (o : sobj) (p : params) :
  flats st !! options = Some o ->
  objs st !! payload = Some p ->
  succeeded (snd (tencentSignV1 env payload options st)) = true ->
  (exists m, js_or (get o "method") (SStr "POST") = SStr m)
  /\ (exists key, get o "SecretKey" = SStr key)
  /\ (get o "SignatureMethod" = SUndef
      \/ exists alg, get o "SignatureMethod" = SStr alg
                     /\ is_Some (digest_named alg)).
Proof.
  intros Ho Hp.
  rewrite (tencentSignV1_total env payload options st o p Ho Hp).
  cbn [snd]. unfold tencentSignV1_outcome.
  destruct (js_or (get o "method") (SStr "POST")) as [| | | | |m];
    try discriminate.
  destruct (get o "SecretKey") as [| | | | |key]; try discriminate.
  destruct (get o "SignatureMethod") as [| |b|z| |alg]; cbn [sign_digest];
    try discriminate.
  - intros _. split_and!; [by eexists | by eexists | by left].
  - destruct (digest_named alg) as [h|] eqn:Hh; [|discriminate].
    intros _. split_and!; [by eexists | by eexists |].
    right. exists alg. split; [done|]. rewrite Hh. by eexists.
Qed.

Lemma tencentSignV1_returns_only_if_witness :
  succeeded (snd (tencentSignV1 (H := sample_platform) sample_env 0%nat 0%nat
                    sample_store)) = true
  /\ (exists m, js_or (get sample_options "method") (SStr "POST") = SStr m)
  /\ (exists key, get sample_options "SecretKey" = SStr key)
  /\ (get sample_options "SignatureMethod" = SUndef
      \/ exists alg, get sample_options "SignatureMethod" = SStr alg
                     /\ is_Some (digest_named (H := sample_platform) alg)).
Proof.
  split; [reflexivity|].
  apply (tencentSignV1_returns_only_if (H := sample_platform) sample_env 0%nat
           0%nat sample_store sample_options sample_data); reflexivity.
Defined.

(** ** The standard fields and the signature among the parameters *)

(** X12. Whatever the caller's object held under these names, after
    [tencentSignV1] it holds the Region and SecretId of the options, the
    nonce and time of the call and the fixed RequestClient
    SDK_NODEJS_v0.0.1 (a RequestClient among the options is not used);
    SignatureMethod becomes HmacSHA256 when the options say sha256 and
    is the caller's otherwise. *)
Theorem standard_fields_are_overwritten `{Platform} (env : Env) (payload : ploc)
    (options : floc) (st : store) (o : sobj) (p : params) :
  flats st !! options = Some o ->
  objs st !! payload = Some p ->
  exists sent,
    objs (fst (tencentSignV1 env payload options st)) !! payload = Some sent
    /\ get_param sent "Region" = Leaf (get o "Region")
    /\ get_param sent "Nonce" = Leaf (SInt (random_nonce env))
    /\ get_param sent "Timestamp" = Leaf (SInt (now_unix env))
    /\ get_param sent "SecretId" = Leaf (get o "SecretId")
    /\ get_param sent "RequestClient" = Leaf (SStr "SDK_NODEJS_v0.0.1")
    /\ get_param sent "SignatureMethod" =
         (if decide (get o "SignatureMethod" = SStr "sha256")
          then Leaf (SStr "HmacSHA256") else get_param p "SignatureMethod").
Proof.
  intros Ho Hp. rewrite (tencentSignV1_total env payload options st o p Ho Hp).
  cbn [fst objs]. eexists. split.
  { apply list_lookup_insert_eq. by eapply lookup_lt_Some. }
  unfold get_param, with_standard_fields.
  case_decide;
    rewrite ?obj_lookup_set_eq;
    repeat (rewrite ?obj_lookup_set_eq; rewrite ?obj_lookup_set_ne by done);
    rewrite ?obj_lookup_set_eq; by split_and!.
Qed.

Lemma standard_fields_are_overwritten_witness :
  exists sent,
    objs (fst (tencentSignV1 (H := sample_platform) sample_env 0%nat 0%nat
                 sample_store)) !! 0%nat = Some sent
    /\ get_param sent "Region" = Leaf (get sample_options "Region")
    /\ get_param sent "Nonce" = Leaf (SInt (random_nonce sample_env))
    /\ get_param sent "Timestamp" = Leaf (SInt (now_unix sample_env))
    /\ get_param sent "SecretId" = Leaf (get sample_options "SecretId")
    /\ get_param sent "RequestClient" = Leaf (SStr "SDK_NODEJS_v0.0.1")
    /\ get_param sent "SignatureMethod" =
         (if decide (get sample_options "SignatureMethod" = SStr "sha256")
          then Leaf (SStr "HmacSHA256")
          else get_param sample_data "SignatureMethod").
Proof.
  apply (standard_fields_are_overwritten (H := sample_platform) sample_env 0%nat
           0%nat sample_store sample_options sample_data); reflexivity.
Defined.

(** X13. When [tencentSignV1] returns, [signPath] is the query string
    of the flattened map with the property Signature set to a string: a
    Signature among the caller's parameters is replaced where it stands,
    otherwise the property is added last, and every other parameter
    keeps its value. *)
Theorem Signature_is_set `{Platform} (env : Env) (payload : ploc)
    (options : floc) (st : store) (o : sobj) (p : params)
    (r : TencentSignResultV1) :
  flats st !! options = Some o ->
  objs st !! payload = Some p ->
  let run := tencentSignV1 env payload options st in
  snd run = Ok r ->
  let flat := flatten (with_standard_fields env o p) in
  exists signed sig,
    flats (fst run) !! length (flats st) = Some signed
    /\ r1_signPath r = qs_stringify signed
    /\ obj_lookup signed "Signature" = Some (SStr sig)
    /\ (forall k, k ≠ "Signature" -> obj_lookup signed k = obj_lookup flat k)
    /\ obj_keys signed =
         (if decide ("Signature" ∈ obj_keys flat) then obj_keys flat
          else obj_keys flat ++ ["Signature"]).
Proof.
  intros Ho Hp run Hr flat. subst run.
  rewrite (tencentSignV1_total env payload options st o p Ho Hp) in Hr |- *.
  cbn [fst snd flats] in Hr |- *. fold flat in Hr |- *.
  unfold tencentSignV1_outcome in Hr |- *.
  destruct (js_or (get o "method") (SStr "POST")) as [| | | | |m];
    try discriminate Hr.
  destruct (get o "SecretKey") as [| | | | |key]; try discriminate Hr.
  destruct (sign_digest (get o "SignatureMethod")) as [h|]; try discriminate Hr.
  injection Hr as <-. eexists _, _. split; [apply lookup_fresh|].
  cbn [r1_signPath]. split_and!.
  - reflexivity.
  - unfold v1_signature. apply obj_lookup_set_eq.
  - intros k Hk. by apply obj_lookup_set_ne.
  - apply obj_keys_set.
Qed.

Lemma Signature_is_set_witness :
  let run := tencentSignV1 (H := sample_platform) sample_env 0%nat 0%nat
               sample_store in
  let flat := flatten (with_standard_fields sample_env sample_options sample_data) in
  exists r,
    snd run = Ok r
    /\ exists signed sig,
      flats (fst run) !! length (flats sample_store) = Some signed
      /\ r1_signPath r = qs_stringify signed
      /\ obj_lookup signed "Signature" = Some (SStr sig)
      /\ (forall k, k ≠ "Signature" -> obj_lookup signed k = obj_lookup flat k)
      /\ obj_keys signed =
           (if decide ("Signature" ∈ obj_keys flat) then obj_keys flat
            else obj_keys flat ++ ["Signature"]).
Proof.
  eexists. split; [vm_compute; reflexivity|].
  apply (Signature_is_set (H := sample_platform) sample_env 0%nat 0%nat
           sample_store sample_options sample_data); reflexivity.
Defined.

(** ** The pairs of the legacy query string *)

Lemma canonical_pair_Some (method : string) (flat : sobj) (k pair : string) :
  canonical_pair method flat k = Some pair ->
  pair = canonical_key k +:+ "=" +:+ serialize_value (get flat (canonical_key k))
  /\ (method = "POST" -> begins_with_at (get flat (canonical_key k)) = false).
Proof.
  unfold canonical_pair.
  destruct (String.eqb_spec method "POST") as [->|Hne]; cbn [andb].
  - destruct (begins_with_at (get flat (canonical_key k))); [done|].
    by intros [= <-].
  - by intros [= <-].
Qed.

(** X14. The query string [tencentSignV1] signs is a list of pairs
    joined by ampersands.  Every pair comes from a key of the map that
    is not empty, and under POST from one whose value does not begin
    with an at sign; with any other method every such key has its pair,
    at sign or not, and under POST every key whose value does not begin
    with an at sign has it.  An empty map gives the empty string. *)
Theorem query_string_pairs (method : string) (flat : sobj) :
  exists pairs,
    build_qstr method flat = join "&" pairs
    /\ (forall pair, pair ∈ pairs ->
        exists k, k ∈ obj_keys flat /\ k ≠ ""
          /\ pair = canonical_key k +:+ "="
                    +:+ serialize_value (get flat (canonical_key k))
          /\ (method = "POST" ->
              begins_with_at (get flat (canonical_key k)) = false))
    /\ (forall k, k ∈ obj_keys flat -> k ≠ "" ->
        method ≠ "POST" \/ begins_with_at (get flat (canonical_key k)) = false ->
        canonical_key k +:+ "=" +:+ serialize_value (get flat (canonical_key k))
          ∈ pairs)
    /\ (flat = [] -> build_qstr method flat = "").
Proof.
  exists (canonical_pairs method flat). split_and!.
  - apply build_qstr_canonical.
  - intros pair Hin. unfold canonical_pairs in Hin.
    apply list_elem_of_omap in Hin as (k & Hk & Hpair).
    apply list_elem_of_filter in Hk as [Hne Hk].
    rewrite <- sort_keys_Permutation in Hk.
    apply canonical_pair_Some in Hpair as [-> Hat]. by exists k.
  - intros k Hk Hne Hcase. apply (canonical_pairs_elem _ _ k); [done | done |].
    unfold canonical_pair. destruct Hcase as [Hm | Hat].
    + apply String.eqb_neq in Hm. by rewrite Hm.
    + by rewrite Hat, andb_false_r.
  - by intros ->.
Qed.

Lemma query_string_pairs_witness :
  build_qstr "POST" sample_flat_upload = "name=x"
  /\ build_qstr "GET" sample_flat_upload = "file=@/tmp/x&name=x"
  /\ exists pairs,
    build_qstr "GET" sample_flat_upload = join "&" pairs
    /\ (forall pair, pair ∈ pairs ->
        exists k, k ∈ obj_keys sample_flat_upload /\ k ≠ ""
          /\ pair = canonical_key k +:+ "="
                    +:+ serialize_value (get sample_flat_upload (canonical_key k))
          /\ ("GET" = "POST" ->
              begins_with_at (get sample_flat_upload (canonical_key k)) = false))
    /\ (forall k, k ∈ obj_keys sample_flat_upload -> k ≠ "" ->
        "GET" ≠ "POST"
        \/ begins_with_at (get sample_flat_upload (canonical_key k)) = false ->
        canonical_key k +:+ "="
        +:+ serialize_value (get sample_flat_upload (canonical_key k)) ∈ pairs)
    /\ (sample_flat_upload = [] -> build_qstr "GET" sample_flat_upload = "").
Proof.
  split; [reflexivity|]. split; [reflexivity|].
  apply (query_string_pairs "GET" sample_flat_upload).
Defined.

(** ** [sign] *)

Lemma createHmac_run `{Platform} (algorithm : scalar) (key : Buffer) (st : store) :
  createHmac (match algorithm with SUndef => SStr "sha256" | _ => algorithm end)
    key st =
  match sign_digest algorithm with
  | Some h => (st, Ok (h key))
  | None => (st, Throw (sign_error algorithm))
  end.
Proof.
  destruct algorithm as [| |b|z| |alg]; try reflexivity.
  unfold createHmac, sign_digest. by destruct (digest_named alg).
Qed.

(** X15. [sign] never changes the store.  It returns the digest, keyed
    by [secretKey], of the bytes of [str] under the algorithm named,
    HMAC-SHA256 when none is given; an algorithm that is no string or
    names no digest is reported before a [str] that is no string. *)
Theorem sign_behaviour `{Platform} (str : scalar) (secretKey : Buffer)
    (algorithm : scalar) (st : store) :
  fst (sign str secretKey algorithm st) = st
  /\ snd (sign str secretKey algorithm st) =
       match sign_digest algorithm, str with
       | Some h, SStr s => Ok (h secretKey (utf8 s))
       | Some _, _ => Throw (TypeError "The first argument must be of type string")
       | None, _ => Throw (sign_error algorithm)
       end
  /\ sign_digest SUndef = Some hmac_sha256
  /\ sign_digest (SStr "sha1") = Some hmac_sha1
  /\ sign_digest (SStr "sha256") = Some hmac_sha256.
Proof.
  assert (sign str secretKey algorithm st =
          (st, match sign_digest algorithm, str with
               | Some h, SStr s => Ok (h secretKey (utf8 s))
               | Some _, _ =>
                   Throw (TypeError "The first argument must be of type string")
               | None, _ => Throw (sign_error algorithm)
               end)) as ->.
  { unfold sign. rewrite bind_run, createHmac_run.
    destruct (sign_digest algorithm) as [h|]; [|reflexivity].
    rewrite bind_run. by destruct str. }
  by split_and!.
Qed.

(** ** The digest of the legacy signature *)

(** X16. With a SignatureMethod among the options that names a digest
    of the crypto library, the Signature [tencentSignV1] stores is the
    base64 form of that digest, keyed by SecretKey, of METHOD + HOST +
    PATH + "?" + query string; sha1 and sha256 name HMAC-SHA1 and
    HMAC-SHA256. *)
Theorem tencentSignV1_configured_digest `{Platform} (env : Env) (payload : ploc)
    (options : floc) (st : store) (o : sobj) (p : params) (m key alg : string)
    (h : Buffer -> Buffer -> Buffer) :
  flats st !! options = Some o ->
  objs st !! payload = Some p ->
  js_or (get o "method") (SStr "POST") = SStr m ->
  get o "SecretKey" = SStr key ->
  get o "SignatureMethod" = SStr alg ->
  digest_named alg = Some h ->
  let flat := flatten (with_standard_fields env o p) in
  let method := toUpperCase m in
  let run := tencentSignV1 env payload options st in
  (exists r signed,
     snd run = Ok r
     /\ r1_method r = method
     /\ flats (fst run) !! length (flats st) = Some signed
     /\ obj_lookup signed "Signature" =
          Some (SStr (base64 (h (utf8 key)
            (utf8 (method +:+ to_str (getHost (hostParams_of o) true)
                   +:+ to_str (get o "path") +:+ "?"
                   +:+ build_qstr method flat))))))
  /\ digest_named "sha1" = Some hmac_sha1
  /\ digest_named "sha256" = Some hmac_sha256.
Proof.
  intros Ho Hp Hm Hkey Halg Hh flat method run. subst run.
  rewrite (tencentSignV1_total env payload options st o p Ho Hp).
  fold flat. unfold tencentSignV1_outcome. rewrite Hm, Hkey, Halg.
  cbn [sign_digest]. rewrite Hh. cbn [fst snd flats].
  split_and!; try reflexivity.
  eexists _, _. split_and!; try reflexivity.
  - apply lookup_fresh.
  - apply obj_lookup_set_eq.
Qed.

Lemma tencentSignV1_configured_digest_witness :
  let o := obj_set sample_options "SignatureMethod" (SStr "sha1") in
  let st := {| objs := [sample_data]; flats := [o]; console := [] |} in
  let flat := flatten (with_standard_fields sample_env o sample_data) in
  let run := tencentSignV1 (H := sample_platform) sample_env 0%nat 0%nat st in
  (exists r signed,
     snd run = Ok r
     /\ r1_method r = "POST"
     /\ flats (fst run) !! length (flats st) = Some signed
     /\ obj_lookup signed "Signature" =
          Some (SStr (@base64 sample_platform (@hmac_sha1 sample_platform (utf8 "key")
            (utf8 ("POST" +:+ to_str (getHost (hostParams_of o) true)
                   +:+ to_str (get o "path") +:+ "?"
                   +:+ build_qstr "POST" flat))))))
  /\ digest_named (H := sample_platform) "sha1" = Some (@hmac_sha1 sample_platform)
  /\ digest_named (H := sample_platform) "sha256"
     = Some (@hmac_sha256 sample_platform).
Proof.
  apply (tencentSignV1_configured_digest (H := sample_platform) sample_env 0%nat
           0%nat
           {| objs := [sample_data];
              flats := [obj_set sample_options "SignatureMethod" (SStr "sha1")];
              console := [] |}
           (obj_set sample_options "SignatureMethod" (SStr "sha1")) sample_data
           "POST" "key" "sha1" (@hmac_sha1 sample_platform)); reflexivity.
Defined.

(** X17. An instance built from options that name no SignatureMethod
    signs legacy requests with HMAC-SHA1: the constructor's default
    reaches the signer, which then adds no SignatureMethod to the
    caller's parameters. *)
Theorem Capi_signs_with_sha1 `{Platform} (env : Env) (payload : ploc)
    (copts : floc) (st : store) (ov : sobj) (p : params) (m key : string) :
  flats st !! copts = Some ov ->
  objs st !! payload = Some p ->
  obj_lookup ov "SignatureMethod" = None ->
  let merged := assign defaultOptions_init ov in
  js_or (get merged "method") (SStr "POST") = SStr m ->
  get merged "SecretKey" = SStr key ->
  let sent := with_standard_fields env merged p in
  let flat := flatten sent in
  let method := toUpperCase m in
  exists st1 c st2 r signed,
    Capi_new copts st = (st1, Ok c)
    /\ tencentSignV1 env payload (options c) st1 = (st2, Ok r)
    /\ flats st2 !! S (length (flats st)) = Some signed
    /\ obj_lookup signed "Signature" =
         Some (SStr (base64 (hmac_sha1 (utf8 key)
           (utf8 (method +:+ to_str (getHost (hostParams_of merged) true)
                  +:+ to_str (get merged "path") +:+ "?"
                  +:+ build_qstr method flat)))))
    /\ obj_lookup sent "SignatureMethod" = obj_lookup p "SignatureMethod".
Proof.
  intros Hov Hp Hsm merged Hm Hkey sent flat method.
  assert (get merged "SignatureMethod" = SStr "sha1") as Hsha1
    by (unfold merged; by rewrite get_assign_absent).
  set (st1 := {| objs := objs st; flats := flats st ++ [merged];
                 console := console st |}).
  assert (flats st1 !! length (flats st) = Some merged) as Ho1
    by apply lookup_fresh.
  exists st1, {| defaultOptions := length (flats st);
                 options := length (flats st) |}.
  rewrite (Capi_new_total copts ov st Hov). cbn [options].
  rewrite (tencentSignV1_total env payload (length (flats st)) st1 merged p
             Ho1 Hp).
  fold sent flat. unfold tencentSignV1_outcome. rewrite Hm, Hkey, Hsha1.
  cbn [sign_digest]. change (digest_named "sha1") with (Some hmac_sha1).
  eexists _, _, _. split_and!; try reflexivity.
  - unfold st1. cbn [flats].
    replace (S (length (flats st))) with (length (flats st ++ [merged]))
      by (rewrite length_app; cbn [length]; lia).
    apply lookup_fresh.
  - apply obj_lookup_set_eq.
  - apply with_standard_fields_SignatureMethod. by rewrite Hsha1.
Qed.

Lemma Capi_signs_with_sha1_witness :
  let merged := assign defaultOptions_init sample_options in
  let sent := with_standard_fields sample_env merged sample_data in
  let flat := flatten sent in
  exists st1 c st2 r signed,
    Capi_new 0%nat sample_store = (st1, Ok c)
    /\ tencentSignV1 (H := sample_platform) sample_env 0%nat (options c) st1
         = (st2, Ok r)
    /\ flats st2 !! S (length (flats sample_store)) = Some signed
    /\ obj_lookup signed "Signature" =
         Some (SStr (@base64 sample_platform (@hmac_sha1 sample_platform (utf8 "key")
           (utf8 ("POST" +:+ to_str (getHost (hostParams_of merged) true)
                  +:+ to_str (get merged "path") +:+ "?"
                  +:+ build_qstr "POST" flat)))))
    /\ obj_lookup sent "SignatureMethod" = obj_lookup sample_data "SignatureMethod".
Proof.
  apply (Capi_signs_with_sha1 (H := sample_platform) sample_env 0%nat 0%nat
           sample_store sample_options sample_data "POST" "key"); reflexivity.
Defined.
